(** * Stock_frontend: document totals and the role-permission table

    A shallow embedding of the client-side computations of the stock and
    invoicing frontend:

    - [Permissions]: [src/lib/permissions.ts], the static role table and its
      lookups;
    - [Invoices]: the line-item form and the totals of
      [src/app/pages/InvoicesPage.tsx];
    - [Purchases]: the same form of the purchases page, on [unitCost];
    - [Quotations]: the flat-rate variant of the quotations page.

    Numbers.  A JavaScript [number] is an IEEE 754 binary64 value.  It is
    modelled twice:

    - as [B64.float], the [spec_float] of the Standard Library at precision
      53, with every operation rounded to nearest even as the processor
      does it: [Document64], [Invoices64] and [Purchases64] are the totals
      of the invoice and purchase forms over it, and the statements on the
      values these forms compute are made there;
    - as an exact rational ([Q]), compared with [==] ([Qeq]), for the
      statements that do not depend on the rounding of an operation:
      counts, signs, bounds, which branch is taken, and the values at
      inputs on which every operation involved is exact (small integers,
      dyadic fractions, the rates 0 and 25). *)

From Stdlib Require Import String List Bool ZArith QArith Qround Lia Lqa.
From Stdlib Require Import DecimalString SpecFloat Qpower.
Import ListNotations.

Local Open Scope string_scope.
Local Open Scope list_scope.

(** ** The JavaScript primitives the pages use *)

Module JS.

Abbreviation number := Q.

(** [Array.prototype.find]: the first element satisfying the predicate,
    [undefined] ([None]) when there is none. *)
Definition find {A : Type} (p : A -> bool) (l : list A) : option A :=
  List.find p l.

(** Truthiness of a string: every string but the empty one. *)
Definition truthy_string (s : string) : bool := negb (String.eqb s "").

(** Truthiness of a number: every number but zero. *)
Definition truthy_number (x : number) : bool := negb (Qeq_bool x 0).

(** [a || b] on strings and on numbers. *)
Definition or_string (a b : string) : string :=
  if truthy_string a then a else b.

Definition or_number (a b : number) : number :=
  if truthy_number a then a else b.

(** [Math.round(x)]: the integer closest to [x]; of two equally close
    integers, the one nearer to plus infinity. *)
Definition Math_round (x : number) : number :=
  inject_Z (Qfloor (x + (1 # 2))).

(** [a < b] and [a > b] on numbers. *)
Definition lt_number (a b : number) : bool := negb (Qle_bool b a).


(** [a ?? b]: [b] when [a] is [undefined] or [null]. *)
Definition nullish {A : Type} (a : option A) (b : A) : A :=
  match a with
  | Some v => v
  | None => b
  end.

(** [n.toString()] of an array index. *)
Definition index_toString (n : nat) : string :=
  NilEmpty.string_of_uint (Nat.to_uint n).

(** [parts.join(sep)]. *)
Definition join (sep : string) (parts : list string) : string :=
  String.concat sep parts.

End JS.

(** ** src/lib/permissions.ts *)

Module Permissions.

Inductive UserRole : Type :=
| admin
| stock_manager
| sales
| viewer.

Inductive Permission : Type :=
| products_read | products_create | products_update | products_delete
| invoices_read | invoices_create | invoices_update | invoices_delete
| purchases_read | purchases_create | purchases_update | purchases_delete
| quotations_read | quotations_create | quotations_update | quotations_delete
| clients_read | clients_create | clients_update | clients_delete
| suppliers_read | suppliers_create | suppliers_update | suppliers_delete
| categories_read | categories_create | categories_update | categories_delete
| stock_read | stock_update
| users_read | users_create | users_update | users_delete
| reports_read | reports_export
| dashboard_read.

Definition Permission_eq_dec (p q : Permission) : {p = q} + {p <> q}.
Proof. decide equality. Defined.

(** [Array.prototype.includes] on a permission list. *)
Definition includes (l : list Permission) (p : Permission) : bool :=
  existsb (fun q => if Permission_eq_dec q p then true else false) l.

Definition rolePermissions (role : UserRole) : list Permission :=
  match role with
  | admin =>
      [ products_read; products_create; products_update; products_delete;
        invoices_read; invoices_create; invoices_update; invoices_delete;
        purchases_read; purchases_create; purchases_update; purchases_delete;
        quotations_read; quotations_create; quotations_update;
        quotations_delete;
        clients_read; clients_create; clients_update; clients_delete;
        suppliers_read; suppliers_create; suppliers_update; suppliers_delete;
        categories_read; categories_create; categories_update;
        categories_delete;
        stock_read; stock_update;
        users_read; users_create; users_update; users_delete;
        reports_read; reports_export;
        dashboard_read ]
  | stock_manager =>
      [ products_read; products_create; products_update; products_delete;
        stock_read; stock_update;
        categories_read; categories_create; categories_update;
        categories_delete;
        dashboard_read ]
  | sales =>
      [ products_read;
        invoices_read; invoices_create; invoices_update;
        purchases_read;
        quotations_read; quotations_create; quotations_update;
        clients_read; clients_create; clients_update;
        suppliers_read;
        categories_read;
        stock_read;
        reports_read; reports_export;
        dashboard_read ]
  | viewer =>
      [ products_read; invoices_read; purchases_read; quotations_read;
        clients_read; suppliers_read; categories_read; stock_read;
        users_read; reports_read; dashboard_read ]
  end.

(** The role argument is [UserRole | undefined]: [None] is [undefined].
    The table has an entry for each of the four roles, so the optional
    chaining [rolePermissions[role]?.] never meets [undefined]. *)
Definition hasPermission (role : option UserRole) (permission : Permission)
  : bool :=
  match role with
  | None => false
  | Some r => includes (rolePermissions r) permission
  end.

Definition hasAnyPermission (role : option UserRole)
    (permissions : list Permission) : bool :=
  match role with
  | None => false
  | Some r =>
      existsb (fun permission => includes (rolePermissions r) permission)
              permissions
  end.

Definition canEdit (role : option UserRole) : bool :=
  hasAnyPermission role
    [ products_create; products_update; products_delete;
      invoices_create; invoices_update; invoices_delete;
      purchases_create; purchases_update; purchases_delete;
      quotations_create; quotations_update; quotations_delete;
      clients_create; clients_update; clients_delete;
      suppliers_create; suppliers_update; suppliers_delete;
      categories_create; categories_update; categories_delete;
      users_create; users_update; users_delete ].

Definition isAdmin (role : option UserRole) : bool :=
  match role with
  | Some admin => true
  | _ => false
  end.

Definition getPermissions (role : UserRole) : list Permission :=
  rolePermissions role.

End Permissions.


(** ** The shape of the totals

    The invoice and the purchase page declare the same six accumulators and
    return an object with the same nine fields. *)

Module Document.
Import JS.
Local Open Scope Q_scope.

(** The six accumulators of [calculateTotals]. *)
Record Sums : Type := mkSums {
  s_totalAEx : number;
  s_totalB18 : number;
  s_totalTaxA : number;
  s_totalTaxB : number;
  s_subtotal : number;
  s_totalDiscount : number
}.

Definition zeroSums : Sums :=
  {| s_totalAEx := 0; s_totalB18 := 0; s_totalTaxA := 0; s_totalTaxB := 0;
     s_subtotal := 0; s_totalDiscount := 0 |}.

(** The object [calculateTotals] returns. *)
Record Totals : Type := mkTotals {
  totalAEx : number;
  totalB18 : number;
  totalTaxA : number;
  totalTaxB : number;
  subtotal : number;
  totalDiscount : number;
  totalTax : number;
  grandTotal : number;
  roundedAmount : number
}.

End Document.

(** ** src/app/pages/InvoicesPage.tsx *)

Module Invoices.
Import JS Document.
Local Open Scope Q_scope.

(** [interface Product]. *)
Record Product : Type := mkProduct {
  _id : string;
  name : string;
  sku : string;
  unit_ : string;
  currentStock : number;
  averageCost : number;
  sellingPrice : number
}.

(** [interface FormItem].  [taxCode] holds the string the tax select
    delivers; its declared type is ['A' | 'B' | 'None']. *)
Record FormItem : Type := mkFormItem {
  id : string;
  product : string;
  itemCode : string;
  quantity : number;
  unitPrice : number;
  discount : number;
  taxCode : string;
  taxRate : number
}.

(** An entry of [TAX_CODES]. *)
Record TaxCodeOption : Type := mkTaxCodeOption {
  value : string;
  label : string;
  rate : number
}.

Definition TAX_CODES : list TaxCodeOption :=
  [ {| value := "A"; label := "A (0%)"; rate := 0 |};
    {| value := "B"; label := "B (18%)"; rate := 18 |} ].

(** The item the form starts with ([useState] and [openCreateModal]) and
    the one [addItem] appends, up to its [id]. *)
Definition blankItem (id0 : string) : FormItem :=
  {| id := id0; product := ""; itemCode := ""; quantity := 1;
     unitPrice := 0; discount := 0; taxCode := "A"; taxRate := 0 |}.

Definition initialFormItems : list FormItem := [ blankItem "1" ].

(** [addItem]; [now] is [Date.now().toString()]. *)
Definition addItem (now : string) (formItems : list FormItem)
  : list FormItem :=
  formItems ++ [ blankItem now ].

Definition removeItem (formItems : list FormItem) (id0 : string)
  : list FormItem :=
  if (1 <? length formItems)%nat
  then filter (fun item => negb (String.eqb (id item) id0)) formItems
  else formItems.

(** The arguments [field: keyof FormItem] and [value: string | number] of
    [updateItem], as the pairs in which the value has the type the
    interface declares for the field. *)
Inductive FieldValue : Type :=
| field_id (v : string)
| field_product (v : string)
| field_itemCode (v : string)
| field_quantity (v : number)
| field_unitPrice (v : number)
| field_discount (v : number)
| field_taxCode (v : string)
| field_taxRate (v : number).

(** [{ ...item, [field]: value }]. *)
Definition assign (item : FormItem) (fv : FieldValue) : FormItem :=
  match fv with
  | field_id v =>
      {| id := v; product := product item; itemCode := itemCode item;
         quantity := quantity item; unitPrice := unitPrice item;
         discount := discount item; taxCode := taxCode item;
         taxRate := taxRate item |}
  | field_product v =>
      {| id := id item; product := v; itemCode := itemCode item;
         quantity := quantity item; unitPrice := unitPrice item;
         discount := discount item; taxCode := taxCode item;
         taxRate := taxRate item |}
  | field_itemCode v =>
      {| id := id item; product := product item; itemCode := v;
         quantity := quantity item; unitPrice := unitPrice item;
         discount := discount item; taxCode := taxCode item;
         taxRate := taxRate item |}
  | field_quantity v =>
      {| id := id item; product := product item; itemCode := itemCode item;
         quantity := v; unitPrice := unitPrice item;
         discount := discount item; taxCode := taxCode item;
         taxRate := taxRate item |}
  | field_unitPrice v =>
      {| id := id item; product := product item; itemCode := itemCode item;
         quantity := quantity item; unitPrice := v;
         discount := discount item; taxCode := taxCode item;
         taxRate := taxRate item |}
  | field_discount v =>
      {| id := id item; product := product item; itemCode := itemCode item;
         quantity := quantity item; unitPrice := unitPrice item;
         discount := v; taxCode := taxCode item;
         taxRate := taxRate item |}
  | field_taxCode v =>
      {| id := id item; product := product item; itemCode := itemCode item;
         quantity := quantity item; unitPrice := unitPrice item;
         discount := discount item; taxCode := v;
         taxRate := taxRate item |}
  | field_taxRate v =>
      {| id := id item; product := product item; itemCode := itemCode item;
         quantity := quantity item; unitPrice := unitPrice item;
         discount := discount item; taxCode := taxCode item;
         taxRate := v |}
  end.

(** The body of [updateItem] on the item whose [id] matched. *)
Definition updateMatched (products : list Product) (item : FormItem)
    (fv : FieldValue) : FormItem :=
  let updated := assign item fv in
  (* Auto-fetch price and stock info when product is selected *)
  let updated :=
    match fv with
    | field_product v =>
        if truthy_string v then
          match find (fun p => String.eqb (_id p) v) products with
          | Some p =>
              assign
                (assign updated
                   (field_unitPrice
                      (or_number (sellingPrice p)
                                 (or_number (averageCost p) 0))))
                (field_itemCode (sku p))
          | None => updated
          end
        else updated
    | _ => updated
    end in
  (* Update tax rate when tax code changes *)
  match fv with
  | field_taxCode v =>
      match find (fun t => String.eqb (value t) v) TAX_CODES with
      | Some tax => assign updated (field_taxRate (rate tax))
      | None => updated
      end
  | _ => updated
  end.

Definition updateItem (products : list Product) (formItems : list FormItem)
    (id0 : string) (fv : FieldValue) : list FormItem :=
  map (fun item =>
         if String.eqb (id item) id0
         then updateMatched products item fv
         else item)
      formItems.

Definition calculateItemTotal (item : FormItem) : number :=
  let subtotal := quantity item * unitPrice item in
  let discount := discount item in
  let netAmount := subtotal - discount in
  let tax := netAmount * (taxRate item / 100) in
  netAmount + tax.

(** One turn of the [forEach] of [calculateTotals]. *)
Definition accumulate (acc : Sums) (item : FormItem) : Sums :=
  let itemSubtotal := quantity item * unitPrice item in
  let itemDiscount := discount item in
  let netAmount := itemSubtotal - itemDiscount in
  let subtotal := s_subtotal acc + itemSubtotal in
  let totalDiscount := s_totalDiscount acc + itemDiscount in
  if String.eqb (taxCode item) "A" then
    {| s_totalAEx := s_totalAEx acc + netAmount;
       s_totalB18 := s_totalB18 acc;
       s_totalTaxA := s_totalTaxA acc + netAmount * (taxRate item / 100);
       s_totalTaxB := s_totalTaxB acc;
       s_subtotal := subtotal;
       s_totalDiscount := totalDiscount |}
  else if String.eqb (taxCode item) "B" then
    {| s_totalAEx := s_totalAEx acc;
       s_totalB18 := s_totalB18 acc + netAmount;
       s_totalTaxA := s_totalTaxA acc;
       s_totalTaxB := s_totalTaxB acc + netAmount * (taxRate item / 100);
       s_subtotal := subtotal;
       s_totalDiscount := totalDiscount |}
  else
    {| s_totalAEx := s_totalAEx acc;
       s_totalB18 := s_totalB18 acc;
       s_totalTaxA := s_totalTaxA acc;
       s_totalTaxB := s_totalTaxB acc;
       s_subtotal := subtotal;
       s_totalDiscount := totalDiscount |}.

Definition calculateTotals (formItems : list FormItem) : Totals :=
  let acc := fold_left accumulate formItems zeroSums in
  let totalTax := s_totalTaxA acc + s_totalTaxB acc in
  let grandTotal := s_subtotal acc - s_totalDiscount acc + totalTax in
  let roundedAmount := Math_round (grandTotal * 100) / 100 in
  {| totalAEx := s_totalAEx acc; totalB18 := s_totalB18 acc;
     totalTaxA := s_totalTaxA acc; totalTaxB := s_totalTaxB acc;
     subtotal := s_subtotal acc; totalDiscount := s_totalDiscount acc;
     totalTax := totalTax; grandTotal := grandTotal;
     roundedAmount := roundedAmount |}.

(** The numeric fields of an entry of [items] in [handleSubmit]'s payload
    ([interface InvoiceItem]); [description] and [unit], which are display
    strings, are left out. *)
Record InvoiceItem : Type := mkInvoiceItem {
  i_product : string;
  i_itemCode : string;
  i_quantity : number;
  i_unitPrice : number;
  i_discount : number;
  i_taxCode : string;
  i_taxRate : number;
  i_taxAmount : number;
  i_subtotal : number;
  i_totalWithTax : number
}.

(** The function [handleSubmit] maps over [formItems]. *)
Definition submitItem (products : list Product) (item : FormItem)
  : InvoiceItem :=
  let product := find (fun p => String.eqb (_id p) (product item)) products in
  let subtotal := quantity item * unitPrice item in
  let discount := discount item in
  let netAmount := subtotal - discount in
  let taxRate := taxRate item in
  let taxAmount := netAmount * (taxRate / 100) in
  let totalWithTax := netAmount + taxAmount in
  {| i_product := Invoices.product item;
     i_itemCode :=
       or_string (itemCode item)
         (or_string (match product with Some p => sku p | None => "" end) "");
     i_quantity := quantity item;
     i_unitPrice := unitPrice item;
     i_discount := Invoices.discount item;
     i_taxCode := taxCode item;
     i_taxRate := Invoices.taxRate item;
     i_taxAmount := taxAmount;
     i_subtotal := subtotal;
     i_totalWithTax := totalWithTax |}.

End Invoices.


(** ** The purchases page *)

Module Purchases.
Import JS Document.
Local Open Scope Q_scope.

(** [interface FormItem] of the purchases page: [unitCost] where the
    invoice form has [unitPrice]. *)
Record FormItem : Type := mkFormItem {
  id : string;
  product : string;
  itemCode : string;
  quantity : number;
  unitCost : number;
  discount : number;
  taxCode : string;
  taxRate : number
}.

Definition calculateItemTotal (item : FormItem) : number :=
  let subtotal := quantity item * unitCost item in
  let discount := discount item in
  let netAmount := subtotal - discount in
  let tax := netAmount * (taxRate item / 100) in
  netAmount + tax.

(** One turn of the [forEach] of [calculateTotals]. *)
Definition accumulate (acc : Sums) (item : FormItem) : Sums :=
  let itemSubtotal := quantity item * unitCost item in
  let itemDiscount := discount item in
  let netAmount := itemSubtotal - itemDiscount in
  let subtotal := s_subtotal acc + itemSubtotal in
  let totalDiscount := s_totalDiscount acc + itemDiscount in
  if String.eqb (taxCode item) "A" then
    {| s_totalAEx := s_totalAEx acc + netAmount;
       s_totalB18 := s_totalB18 acc;
       s_totalTaxA := s_totalTaxA acc + netAmount * (taxRate item / 100);
       s_totalTaxB := s_totalTaxB acc;
       s_subtotal := subtotal;
       s_totalDiscount := totalDiscount |}
  else if String.eqb (taxCode item) "B" then
    {| s_totalAEx := s_totalAEx acc;
       s_totalB18 := s_totalB18 acc + netAmount;
       s_totalTaxA := s_totalTaxA acc;
       s_totalTaxB := s_totalTaxB acc + netAmount * (taxRate item / 100);
       s_subtotal := subtotal;
       s_totalDiscount := totalDiscount |}
  else
    {| s_totalAEx := s_totalAEx acc;
       s_totalB18 := s_totalB18 acc;
       s_totalTaxA := s_totalTaxA acc;
       s_totalTaxB := s_totalTaxB acc;
       s_subtotal := subtotal;
       s_totalDiscount := totalDiscount |}.

Definition calculateTotals (formItems : list FormItem) : Totals :=
  let acc := fold_left accumulate formItems zeroSums in
  let totalTax := s_totalTaxA acc + s_totalTaxB acc in
  let grandTotal := s_subtotal acc - s_totalDiscount acc + totalTax in
  let roundedAmount := Math_round (grandTotal * 100) / 100 in
  {| totalAEx := s_totalAEx acc; totalB18 := s_totalB18 acc;
     totalTaxA := s_totalTaxA acc; totalTaxB := s_totalTaxB acc;
     subtotal := s_subtotal acc; totalDiscount := s_totalDiscount acc;
     totalTax := totalTax; grandTotal := grandTotal;
     roundedAmount := roundedAmount |}.

(** The entry of [items] in [handleSubmit]'s payload
    ([interface PurchaseItem]), without the display strings [itemCode],
    [description] and [unit], which are looked up in the product list. *)
Record PurchaseItem : Type := mkPurchaseItem {
  i_product : string;
  i_quantity : number;
  i_unitCost : number;
  i_discount : number;
  i_taxCode : string;
  i_taxRate : number;
  i_taxAmount : number;
  i_subtotal : number;
  i_totalWithTax : number
}.

(** The function [handleSubmit] maps over [formItems]. *)
Definition submitItem (item : FormItem) : PurchaseItem :=
  let subtotal := quantity item * unitCost item in
  let discount := discount item in
  let netAmount := subtotal - discount in
  let taxRate := taxRate item in
  let taxAmount := netAmount * (taxRate / 100) in
  let totalWithTax := netAmount + taxAmount in
  {| i_product := product item;
     i_quantity := quantity item;
     i_unitCost := unitCost item;
     i_discount := Purchases.discount item;
     i_taxCode := taxCode item;
     i_taxRate := Purchases.taxRate item;
     i_taxAmount := taxAmount;
     i_subtotal := subtotal;
     i_totalWithTax := totalWithTax |}.

End Purchases.

(** ** The quotations page *)

Module Quotations.
Import JS.
Local Open Scope Q_scope.

(** [interface FormItem] of the quotations page: one tax rate a line, no
    tax code. *)
Record FormItem : Type := mkFormItem {
  id : string;
  product : string;
  itemCode : string;
  quantity : number;
  unitPrice : number;
  discount : number;
  taxRate : number
}.

Definition calculateItemTotal (item : FormItem) : number :=
  let subtotal := quantity item * unitPrice item in
  let discount := discount item in
  let tax := (subtotal - discount) * (taxRate item / 100) in
  subtotal - discount + tax.

(** The object [calculateTotals] returns. *)
Record Totals : Type := mkTotals {
  subtotal : number;
  totalTax : number;
  grandTotal : number
}.

(** One turn of the [forEach] of [calculateTotals], on the pair
    [(subtotal, totalTax)]. *)
Definition accumulate (acc : number * number) (item : FormItem)
  : number * number :=
  let itemSubtotal := quantity item * unitPrice item in
  (fst acc + itemSubtotal,
   snd acc + (itemSubtotal - discount item) * (taxRate item / 100)).

Definition calculateTotals (formItems : list FormItem) : Totals :=
  let acc := fold_left accumulate formItems (0, 0) in
  {| subtotal := fst acc; totalTax := snd acc;
     grandTotal := fst acc + snd acc |}.

(** The entry of [items] in [handleSubmit]'s payload, without the display
    strings [itemCode], [description] and [unit], which are looked up in
    the product list. *)
Record QuotationItem : Type := mkQuotationItem {
  i_product : string;
  i_quantity : number;
  i_unitPrice : number;
  i_discount : number;
  i_taxRate : number;
  i_subtotal : number;
  i_total : number
}.

(** The function [handleSubmit] maps over [formItems]. *)
Definition submitItem (item : FormItem) : QuotationItem :=
  let subtotal := quantity item * unitPrice item in
  let totalTax := (subtotal - discount item) * (taxRate item / 100) in
  {| i_product := product item;
     i_quantity := quantity item;
     i_unitPrice := unitPrice item;
     i_discount := discount item;
     i_taxRate := taxRate item;
     i_subtotal := subtotal;
     i_total := subtotal - discount item + totalTax |}.

End Quotations.


(** ** What the statements below are phrased with *)

Module Spec.
Import JS.
Local Open Scope Q_scope.

(** The sum of [f] over a list: the meaning of "the sum over all lines". *)
Fixpoint sumOver {A : Type} (f : A -> number) (l : list A) : number :=
  match l with
  | [] => 0
  | x :: l' => f x + sumOver f l'
  end.

(** Rounding to two decimal places, half away from zero: the policy the
    specification names for [roundedTotal].  The magnitude is rounded half
    up on the scaled value and the sign is put back. *)
Definition roundHalfAwayFromZero (x : number) : number :=
  if Qle_bool 0 x
  then inject_Z (Qfloor (x * 100 + (1 # 2))) / 100
  else - (inject_Z (Qfloor (- x * 100 + (1 # 2))) / 100).

(** The error taxonomy of the specification. *)
Inductive Error : Type :=
| InvalidLineItem
| InconsistentTaxCode
| EmptyRequiredField.

(** How a call completes: with a value, or with one of the errors. *)
Inductive Outcome (A : Type) : Type :=
| Returns (v : A)
| Fails (e : Error).

Arguments Returns {A} v.
Arguments Fails {A} e.

(** [computeLineTotal(...).totalWithTax] as the specification words it:
    [InvalidLineItem] on a negative net amount. *)
Definition computeLineTotal (quantity unitAmount discount taxRate : number)
  : Outcome number :=
  let netAmount := quantity * unitAmount - discount in
  if Qle_bool 0 netAmount
  then Returns (netAmount + netAmount * (taxRate / 100))
  else Fails InvalidLineItem.

End Spec.

Module InvoiceSpec.
Import JS Document Invoices.
Local Open Scope Q_scope.

(** The amounts of a line. *)
Definition lineSubtotal (item : FormItem) : number :=
  quantity item * unitPrice item.

Definition netAmount (item : FormItem) : number :=
  quantity item * unitPrice item - discount item.

Definition taxAmount (item : FormItem) : number :=
  netAmount item * (taxRate item / 100).

(** What a line adds to each bracket aggregate. *)
Definition inBracket (code : string) (f : FormItem -> number)
    (item : FormItem) : number :=
  if String.eqb (taxCode item) code then f item else 0.

(** [taxRate] agrees with [taxCode]: A implies 0, B implies 18. *)
Definition taxConsistent (item : FormItem) : bool :=
  (if String.eqb (taxCode item) "A" then Qeq_bool (taxRate item) 0 else true)
  && (if String.eqb (taxCode item) "B" then Qeq_bool (taxRate item) 18
      else true).

Definition isTaxRateField (fv : FieldValue) : bool :=
  match fv with
  | field_taxRate _ => true
  | _ => false
  end.

(** The item lists the form reaches from its initial state by [addItem]
    and by [updateItem] on the fields [allowed] admits. *)
Inductive reachable (allowed : FieldValue -> bool) (products : list Product)
  : list FormItem -> Prop :=
| reach_initial : reachable allowed products initialFormItems
| reach_addItem (now : string) (formItems : list FormItem) :
    reachable allowed products formItems ->
    reachable allowed products (addItem now formItems)
| reach_updateItem (formItems : list FormItem) (id0 : string)
    (fv : FieldValue) :
    allowed fv = true ->
    reachable allowed products formItems ->
    reachable allowed products (updateItem products formItems id0 fv).

Definition exceptTaxRate (fv : FieldValue) : bool := negb (isTaxRateField fv).

(** The fields the inputs of the form call [updateItem] with: the item
    code, the product select, the quantity, the tax select and the unit
    price ([InvoicesPage.tsx], lines 1076-1115). *)
Definition formInput (fv : FieldValue) : bool :=
  match fv with
  | field_itemCode _ | field_product _ | field_quantity _
  | field_taxCode _ | field_unitPrice _ => true
  | _ => false
  end.

(** The item lists the page reaches: the initial list, which closing the
    form restores, the button of [addItem], the button of [removeItem] and
    the inputs of a row. *)
Inductive formReachable (products : list Product) : list FormItem -> Prop :=
| form_initial : formReachable products initialFormItems
| form_addItem (now : string) (formItems : list FormItem) :
    formReachable products formItems ->
    formReachable products (addItem now formItems)
| form_removeItem (formItems : list FormItem) (id0 : string) :
    formReachable products formItems ->
    formReachable products (removeItem formItems id0)
| form_updateItem (formItems : list FormItem) (id0 : string)
    (fv : FieldValue) :
    formInput fv = true ->
    formReachable products formItems ->
    formReachable products (updateItem products formItems id0 fv).

End InvoiceSpec.

Module PurchaseSpec.
Import JS Document.
Local Open Scope Q_scope.

(** A purchase line read as an invoice line: [unitCost] for [unitPrice]. *)
Definition asInvoiceItem (item : Purchases.FormItem) : Invoices.FormItem :=
  {| Invoices.id := Purchases.id item;
     Invoices.product := Purchases.product item;
     Invoices.itemCode := Purchases.itemCode item;
     Invoices.quantity := Purchases.quantity item;
     Invoices.unitPrice := Purchases.unitCost item;
     Invoices.discount := Purchases.discount item;
     Invoices.taxCode := Purchases.taxCode item;
     Invoices.taxRate := Purchases.taxRate item |}.

End PurchaseSpec.

Module QuotationSpec.
Import JS Quotations.
Local Open Scope Q_scope.

(** The [total] submitted for a line. *)
Definition lineTotal (item : FormItem) : number := i_total (submitItem item).

End QuotationSpec.


(** ** Concrete forms *)

Module Examples.
Import JS Document.
Local Open Scope Q_scope.

Definition invoiceLine (q u d : number) (code : string) (r : number)
  : Invoices.FormItem :=
  {| Invoices.id := "1"; Invoices.product := "p1"; Invoices.itemCode := "sku1";
     Invoices.quantity := q; Invoices.unitPrice := u; Invoices.discount := d;
     Invoices.taxCode := code; Invoices.taxRate := r |}.

Definition purchaseLine (q u d : number) (code : string) (r : number)
  : Purchases.FormItem :=
  {| Purchases.id := "1"; Purchases.product := "p1";
     Purchases.itemCode := "sku1";
     Purchases.quantity := q; Purchases.unitCost := u;
     Purchases.discount := d;
     Purchases.taxCode := code; Purchases.taxRate := r |}.

Definition quotationLine (q u d r : number) : Quotations.FormItem :=
  {| Quotations.id := "1"; Quotations.product := "p1";
     Quotations.itemCode := "sku1";
     Quotations.quantity := q; Quotations.unitPrice := u;
     Quotations.discount := d; Quotations.taxRate := r |}.

(** Scenario 2 of the specification: [{2,1000,0,B}] and [{1,500,100,A}]. *)
Definition lineB : Invoices.FormItem := invoiceLine 2 1000 0 "B" 18.
Definition lineA : Invoices.FormItem := invoiceLine 1 500 100 "A" 0.

(** A line outside both brackets. *)
Definition lineNone : Invoices.FormItem := invoiceLine 3 40 20 "None" 0.

(** Scenario 4 of the specification: [{1,100,150,A}]. *)
Definition overDiscounted : Invoices.FormItem := invoiceLine 1 100 150 "A" 0.

(** A credit of an eighth: the grand total is [-0.125], half a cent below
    [-0.12]. *)
Definition halfCentCredit : Invoices.FormItem :=
  invoiceLine 1 (-0.125) 0 "A" 0.

(** A discounted quotation line: 2 at 100, 40 off, taxed at 25%. *)
Definition discountedQuote : Quotations.FormItem := quotationLine 2 100 40 25.

End Examples.


(** ** src/lib/utils.ts: the authentication context *)

Module Auth.
Import JS Permissions.

(** [interface User]. *)
Record User : Type := mkUser {
  _id : string;
  name : string;
  email : string;
  role : UserRole
}.

(** The two state cells of [AuthProvider]: [user] and [token], each
    possibly [null]. *)
Record AuthState : Type := mkAuthState {
  user : option User;
  token : option string
}.

(** [user?.role]. *)
Definition userRole (s : AuthState) : option UserRole :=
  option_map role (user s).

(** [hasPermission] of the context value. *)
Definition ctx_hasPermission (s : AuthState) (permission : Permission)
  : bool :=
  hasPermission (userRole s) permission.

End Auth.

(** ** The suppliers page *)

Module Suppliers.
Import JS Permissions.

(** [supplier.contact], of which [getLocation] reads [city] and
    [country]; both are optional. *)
Record Contact : Type := mkContact {
  city : option string;
  country : option string
}.

(** [getLocation] reads [supplier.contact?.city]: the contact itself may
    be missing. *)
Definition getLocation (contact : option Contact) : string :=
  let present (field : Contact -> option string) : option string :=
    match contact with
    | Some c =>
        match field c with
        | Some v => if truthy_string v then Some v else None
        | None => None
        end
    | None => None
    end in
  let parts := [] in
  let parts :=
    match present city with Some v => parts ++ [v] | None => parts end in
  let parts :=
    match present country with Some v => parts ++ [v] | None => parts end in
  if (0 <? length parts)%nat then join ", " parts else "-".

(** [canEditSuppliers], on the context of the logged-in user. *)
Definition canEditSuppliers (s : Auth.AuthState) : bool :=
  Auth.ctx_hasPermission s suppliers_create
  || Auth.ctx_hasPermission s suppliers_update
  || Auth.ctx_hasPermission s suppliers_delete.

End Suppliers.

(** ** InvoicesPage.tsx: the form around the items and its submission *)

Module InvoiceSubmit.
Import JS Document Invoices.
Local Open Scope Q_scope.

(** [interface Client]. *)
Record ClientContact : Type := mkClientContact {
  address : option string;
  phone : option string;
  c_email : option string
}.

Record Client : Type := mkClient {
  c_id : string;
  c_name : string;
  code : option string;
  taxId : option string;
  contact : option ClientContact;
  paymentTerms : option string
}.

(** The form fields of the page ([useState] cells). *)
Record Form : Type := mkForm {
  formClient : string;
  formQuotation : string;
  formCurrency : string;
  formPaymentTerms : string;
  formItems : list FormItem;
  formInvoiceDate : string;
  formDueDate : string;
  formTerms : string;
  formNotes : string;
  selectedClientData : option Client
}.

(** [openCreateModal]; [today] and [in30days] are the two dates it derives
    from the clock. *)
Definition openCreateModal (today in30days : string) (f : Form) : Form :=
  {| formClient := "";
     formQuotation := "";
     formCurrency := "FRW";
     formPaymentTerms := "cash";
     formItems := [ blankItem "1" ];
     formInvoiceDate := today;
     formDueDate := in30days;
     formTerms := "Payment due within 30 days";
     formNotes := "";
     selectedClientData := None |}.

(** [selectClient]. *)
Definition selectClient (client : Client) (f : Form) : Form :=
  {| formClient := c_id client;
     formQuotation := formQuotation f;
     formCurrency := formCurrency f;
     formPaymentTerms :=
       match paymentTerms client with
       | Some terms =>
           if truthy_string terms then terms else formPaymentTerms f
       | None => formPaymentTerms f
       end;
     formItems := formItems f;
     formInvoiceDate := formInvoiceDate f;
     formDueDate := formDueDate f;
     formTerms := formTerms f;
     formNotes := formNotes f;
     selectedClientData := Some client |}.

(** The object [handleSubmit] passes to [invoicesApi.create]; [totals] is
    the spread [...totals]. *)
Record InvoiceData : Type := mkInvoiceData {
  d_client : string;
  d_quotation : option string;
  d_currency : string;
  d_paymentTerms : string;
  d_customerTin : option string;
  d_customerName : option string;
  d_customerAddress : option string;
  d_items : list InvoiceItem;
  d_invoiceDate : string;
  d_dueDate : string;
  d_terms : string;
  d_notes : string;
  d_totals : Totals
}.

(** What [handleSubmit] reports through [setError] before it returns
    early: 'Please select a client', 'Please select all products', and
    the insufficient-stock message built from the product and the item. *)
Inductive SubmitError : Type :=
| select_client
| select_products
| insufficient_stock (product : Product) (item : FormItem).

(** The stock loop of [handleSubmit]: the first item whose product is in
    the list with less stock than the quantity asked. *)
Fixpoint stockShortage (products : list Product) (items : list FormItem)
  : option (Product * FormItem) :=
  match items with
  | [] => None
  | item :: rest =>
      match find (fun p => String.eqb (_id p) (product item)) products with
      | Some p =>
          if lt_number (currentStock p) (quantity item)
          then Some (p, item)
          else stockShortage products rest
      | None => stockShortage products rest
      end
  end.

(** [handleSubmit] up to the API call: the error it reports, or the data
    it sends. *)
Definition handleSubmit (products : list Product) (f : Form)
  : SubmitError + InvoiceData :=
  if negb (truthy_string (formClient f)) then inl select_client
  else if existsb (fun item => negb (truthy_string (product item)))
                  (formItems f)
  then inl select_products
  else
    match stockShortage products (formItems f) with
    | Some (p, item) => inl (insufficient_stock p item)
    | None =>
        let items := map (submitItem products) (formItems f) in
        let totals := calculateTotals (formItems f) in
        inr {| d_client := formClient f;
               d_quotation :=
                 if truthy_string (formQuotation f)
                 then Some (formQuotation f) else None;
               d_currency := formCurrency f;
               d_paymentTerms := formPaymentTerms f;
               d_customerTin :=
                 match selectedClientData f with
                 | Some c => taxId c
                 | None => None
                 end;
               d_customerName := option_map c_name (selectedClientData f);
               d_customerAddress :=
                 match selectedClientData f with
                 | Some c =>
                     match contact c with
                     | Some k => address k
                     | None => None
                     end
                 | None => None
                 end;
               d_items := items;
               d_invoiceDate := formInvoiceDate f;
               d_dueDate := formDueDate f;
               d_terms := formTerms f;
               d_notes := formNotes f;
               d_totals := totals |}
    end.

(** An [Invoice] of the list, as far as the three figures above the table
    read it: [grandTotal] and [amountPaid] may be missing ([?? 0]). *)
Record Invoice : Type := mkInvoice {
  status : string;
  inv_grandTotal : option number;
  inv_amountPaid : option number
}.

(** [reduce((sum, i) => sum + f(i), 0)]. *)
Definition reduceSum {A : Type} (f : A -> number) (l : list A) : number :=
  fold_left (fun sum i => sum + f i) l 0.

Definition totalRevenue (invoices : list Invoice) : number :=
  reduceSum (fun i => nullish (inv_grandTotal i) 0)
    (filter (fun i => String.eqb (status i) "paid") invoices).

Definition pendingAmount (invoices : list Invoice) : number :=
  reduceSum
    (fun i => nullish (inv_grandTotal i) 0 - nullish (inv_amountPaid i) 0)
    (filter (fun i => String.eqb (status i) "confirmed"
                      || String.eqb (status i) "partial") invoices).

Definition draftAmount (invoices : list Invoice) : number :=
  reduceSum (fun i => nullish (inv_grandTotal i) 0)
    (filter (fun i => String.eqb (status i) "draft") invoices).

End InvoiceSubmit.

(** ** The purchases page: the item operations of the form *)

Module PurchaseForm.
Import JS Purchases.
Local Open Scope Q_scope.

(** [interface Product] of the purchases page. *)
Record Product : Type := mkProduct {
  _id : string;
  name : string;
  sku : string;
  unit_ : string;
  currentStock : number;
  averageCost : number
}.

(** An entry of [TAX_CODES]. *)
Record TaxCodeOption : Type := mkTaxCodeOption {
  value : string;
  label : string;
  rate : number
}.

Definition TAX_CODES : list TaxCodeOption :=
  [ {| value := "A"; label := "A (0%)"; rate := 0 |};
    {| value := "B"; label := "B (18%)"; rate := 18 |} ].

Definition blankItem (id0 : string) : FormItem :=
  {| id := id0; product := ""; itemCode := ""; quantity := 1;
     unitCost := 0; discount := 0; taxCode := "A"; taxRate := 0 |}.

Definition initialFormItems : list FormItem := [ blankItem "1" ].

(** [addItem]; [now] is [Date.now().toString()]. *)
Definition addItem (now : string) (formItems : list FormItem)
  : list FormItem :=
  formItems ++ [ blankItem now ].

Definition removeItem (formItems : list FormItem) (id0 : string)
  : list FormItem :=
  if (1 <? length formItems)%nat
  then filter (fun item => negb (String.eqb (id item) id0)) formItems
  else formItems.

(** The arguments [field] and [value] of [updateItem], as the pairs in
    which the value has the type the interface declares for the field. *)
Inductive FieldValue : Type :=
| field_id (v : string)
| field_product (v : string)
| field_itemCode (v : string)
| field_quantity (v : number)
| field_unitCost (v : number)
| field_discount (v : number)
| field_taxCode (v : string)
| field_taxRate (v : number).

(** [{ ...item, [field]: value }]. *)
Definition assign (item : FormItem) (fv : FieldValue) : FormItem :=
  match fv with
  | field_id v =>
      {| id := v; product := product item; itemCode := itemCode item;
         quantity := quantity item; unitCost := unitCost item;
         discount := discount item; taxCode := taxCode item;
         taxRate := taxRate item |}
  | field_product v =>
      {| id := id item; product := v; itemCode := itemCode item;
         quantity := quantity item; unitCost := unitCost item;
         discount := discount item; taxCode := taxCode item;
         taxRate := taxRate item |}
  | field_itemCode v =>
      {| id := id item; product := product item; itemCode := v;
         quantity := quantity item; unitCost := unitCost item;
         discount := discount item; taxCode := taxCode item;
         taxRate := taxRate item |}
  | field_quantity v =>
      {| id := id item; product := product item; itemCode := itemCode item;
         quantity := v; unitCost := unitCost item;
         discount := discount item; taxCode := taxCode item;
         taxRate := taxRate item |}
  | field_unitCost v =>
      {| id := id item; product := product item; itemCode := itemCode item;
         quantity := quantity item; unitCost := v;
         discount := discount item; taxCode := taxCode item;
         taxRate := taxRate item |}
  | field_discount v =>
      {| id := id item; product := product item; itemCode := itemCode item;
         quantity := quantity item; unitCost := unitCost item;
         discount := v; taxCode := taxCode item;
         taxRate := taxRate item |}
  | field_taxCode v =>
      {| id := id item; product := product item; itemCode := itemCode item;
         quantity := quantity item; unitCost := unitCost item;
         discount := discount item; taxCode := v;
         taxRate := taxRate item |}
  | field_taxRate v =>
      {| id := id item; product := product item; itemCode := itemCode item;
         quantity := quantity item; unitCost := unitCost item;
         discount := discount item; taxCode := taxCode item;
         taxRate := v |}
  end.

(** The body of [updateItem] on the item whose [id] matched. *)
Definition updateMatched (products : list Product) (item : FormItem)
    (fv : FieldValue) : FormItem :=
  let updated := assign item fv in
  let updated :=
    match fv with
    | field_product v =>
        if truthy_string v then
          match find (fun p => String.eqb (_id p) v) products with
          | Some p =>
              assign
                (assign updated
                   (field_unitCost (or_number (averageCost p) 0)))
                (field_itemCode (sku p))
          | None => updated
          end
        else updated
    | _ => updated
    end in
  match fv with
  | field_taxCode v =>
      match find (fun t => String.eqb (value t) v) TAX_CODES with
      | Some tax => assign updated (field_taxRate (rate tax))
      | None => updated
      end
  | _ => updated
  end.

Definition updateItem (products : list Product) (formItems : list FormItem)
    (id0 : string) (fv : FieldValue) : list FormItem :=
  map (fun item =>
         if String.eqb (id item) id0
         then updateMatched products item fv
         else item)
      formItems.

End PurchaseForm.

(** ** The quotations page: editing a stored quotation, and the counters *)

Module QuotationEdit.
Import JS Quotations.
Local Open Scope Q_scope.

(** [it.product] of a stored item, in the three shapes [openEditModal]
    provides for: the populated object, the bare id, nothing. *)
Inductive ProductRef : Type :=
| populated (_id name sku : string)
| bare (id : string)
| missing.

(** [interface QuotationItem], as far as [openEditModal] reads it. *)
Record StoredItem : Type := mkStoredItem {
  st_product : ProductRef;
  st_itemCode : string;
  st_quantity : number;
  st_unitPrice : number;
  st_discount : number;
  st_taxRate : number
}.

(** [it.product?._id]. *)
Definition product_id (p : ProductRef) : option string :=
  match p with
  | populated i _ _ => Some i
  | _ => None
  end.

(** [(it.product?._id || idx).toString()]. *)
Definition editId (idx : nat) (p : ProductRef) : string :=
  match product_id p with
  | Some i => if truthy_string i then i else index_toString idx
  | None => index_toString idx
  end.

(** [(it.product as any)?._id || (it.product as any) || '']: the id of a
    populated product, the bare id itself, or the empty string.  For a
    populated product with an empty [_id] the expression is the product
    object, which is no [string]: [None]. *)
Definition editProduct (p : ProductRef) : option string :=
  match p with
  | populated i _ _ => if truthy_string i then Some i else None
  | bare i => Some (or_string i "")
  | missing => Some ""
  end.

(** [it.itemCode || (it.product as any)?.sku || '']. *)
Definition editItemCode (code : string) (p : ProductRef) : string :=
  or_string code
    (or_string (match p with populated _ _ s => s | _ => "" end) "").

(** The function [openEditModal] maps over [quotation.items], with the
    index. *)
Definition editItem (idx : nat) (it : StoredItem) : option FormItem :=
  match editProduct (st_product it) with
  | Some p =>
      Some {| id := editId idx (st_product it);
              product := p;
              itemCode := editItemCode (st_itemCode it) (st_product it);
              quantity := or_number (st_quantity it) 1;
              unitPrice := or_number (st_unitPrice it) 0;
              discount := or_number (st_discount it) 0;
              taxRate := or_number (st_taxRate it) 18 |}
  | None => None
  end.

(** A quotation of the list, as far as the counters read it. *)
Record Quotation : Type := mkQuotation {
  status : string
}.

Definition pendingCount (quotations : list Quotation) : nat :=
  length (filter (fun q => String.eqb (status q) "draft"
                           || String.eqb (status q) "sent") quotations).

Definition acceptedCount (quotations : list Quotation) : nat :=
  length (filter (fun q => String.eqb (status q) "approved"
                           || String.eqb (status q) "converted")
                 quotations).

End QuotationEdit.

(** ** The dashboard: the percentages of the stat cards *)

Module Dashboard.
Import JS.
Local Open Scope Q_scope.





End Dashboard.

(** ** What the further statements are phrased with *)

Module PurchaseFormSpec.
Import JS Purchases PurchaseForm.
Local Open Scope Q_scope.

(** [taxRate] agrees with [taxCode]: A implies 0, B implies 18. *)
Definition taxConsistent (item : FormItem) : bool :=
  InvoiceSpec.taxConsistent (PurchaseSpec.asInvoiceItem item).

Definition isTaxRateField (fv : FieldValue) : bool :=
  match fv with
  | field_taxRate _ => true
  | _ => false
  end.

(** The item lists the purchase form reaches from its initial state by
    [addItem], by [removeItem] and by [updateItem] on a field other than
    [taxRate], which no input of the form edits. *)
Inductive reachable (products : list Product) : list FormItem -> Prop :=
| reach_initial : reachable products initialFormItems
| reach_addItem (now : string) (formItems : list FormItem) :
    reachable products formItems ->
    reachable products (addItem now formItems)
| reach_removeItem (formItems : list FormItem) (id0 : string) :
    reachable products formItems ->
    reachable products (removeItem formItems id0)
| reach_updateItem (formItems : list FormItem) (id0 : string)
    (fv : FieldValue) :
    isTaxRateField fv = false ->
    reachable products formItems ->
    reachable products (updateItem products formItems id0 fv).

End PurchaseFormSpec.

Module MoreExamples.
Import JS.
Local Open Scope Q_scope.

(** A product with ten units in stock. *)
Definition widget : Invoices.Product :=
  {| Invoices._id := "p1"; Invoices.name := "Widget";
     Invoices.sku := "sku1"; Invoices.unit_ := "pcs";
     Invoices.currentStock := 10; Invoices.averageCost := 40;
     Invoices.sellingPrice := 50 |}.

(** A form with a client and two units of the widget. *)
Definition readyForm : InvoiceSubmit.Form :=
  {| InvoiceSubmit.formClient := "c1";
     InvoiceSubmit.formQuotation := "";
     InvoiceSubmit.formCurrency := "FRW";
     InvoiceSubmit.formPaymentTerms := "cash";
     InvoiceSubmit.formItems := [ Examples.invoiceLine 2 50 0 "B" 18 ];
     InvoiceSubmit.formInvoiceDate := "2026-01-01";
     InvoiceSubmit.formDueDate := "2026-01-31";
     InvoiceSubmit.formTerms := "";
     InvoiceSubmit.formNotes := "";
     InvoiceSubmit.selectedClientData := None |}.

(** A stored quotation line with its product populated. *)
Definition storedLine (q u d r : number) : QuotationEdit.StoredItem :=
  {| QuotationEdit.st_product := QuotationEdit.populated "p1" "Widget" "sku1";
     QuotationEdit.st_itemCode := "sku1";
     QuotationEdit.st_quantity := q;
     QuotationEdit.st_unitPrice := u;
     QuotationEdit.st_discount := d;
     QuotationEdit.st_taxRate := r |}.

End MoreExamples.


(** ** Binary64 numbers

    The second model of a JavaScript [number]: the IEEE 754 binary64
    values with the operations rounded to nearest, ties to even, as the
    Standard Library specifies them ([SpecFloat], precision 53, exponent
    bound 1024).  The statements about the values the totals take are made
    on this model. *)

Module B64.
Local Open Scope Z_scope.

Abbreviation float := spec_float.

Definition prec : Z := 53.
Definition emax : Z := 1024.

Definition add : float -> float -> float := SFadd prec emax.
Definition sub : float -> float -> float := SFsub prec emax.
Definition mul : float -> float -> float := SFmul prec emax.
Definition div : float -> float -> float := SFdiv prec emax.

(** [a < b]; [false] when either is [NaN]. *)
Definition ltb : float -> float -> bool := SFltb.

Definition zero : float := S754_zero false.

(** The integer literal [n]. *)
Definition of_Z (n : Z) : float := binary_normalize prec emax n 0 false.

(** The decimal literal, or the decimal string [parseFloat] reads, of
    value [n / d]: the binary64 number nearest to it. *)
Definition decimal (n : Z) (d : positive) : float :=
  match n with
  | Z0 => zero
  | Zpos m => div (S754_finite false m 0) (S754_finite false d 0)
  | Zneg m => div (S754_finite true m 0) (S754_finite false d 0)
  end.

Definition hundred : float := of_Z 100.

(** The rational a finite number stands for. *)
Definition value_of (s : bool) (m : positive) (e : Z) : Q :=
  (inject_Z (if s then Zneg m else Zpos m) * Qpower 2 e)%Q.

Definition to_Q (x : float) : option Q :=
  match x with
  | S754_zero _ => Some 0%Q
  | S754_finite s m e => Some (value_of s m e)
  | S754_infinity _ => None
  | S754_nan => None
  end.




(** [Math.round(x)]: [x] itself when it is [NaN], infinite or a zero;
    otherwise the integer nearest to [x], the upper one of two equally
    near, with the sign of [x] when that integer is 0. *)
Definition Math_round (x : float) : float :=
  match x with
  | S754_finite s m e =>
      let k := Qfloor (value_of s m e + (1 # 2))%Q in
      if k =? 0 then S754_zero s else of_Z k
  | _ => x
  end.

End B64.

(** ** The totals on binary64 numbers *)

Module Document64.
Import B64.

(** The six accumulators of [calculateTotals]. *)
Record Sums : Type := mkSums {
  s_totalAEx : float;
  s_totalB18 : float;
  s_totalTaxA : float;
  s_totalTaxB : float;
  s_subtotal : float;
  s_totalDiscount : float
}.

Definition zeroSums : Sums :=
  {| s_totalAEx := zero; s_totalB18 := zero; s_totalTaxA := zero;
     s_totalTaxB := zero; s_subtotal := zero; s_totalDiscount := zero |}.

(** The object [calculateTotals] returns. *)
Record Totals : Type := mkTotals {
  totalAEx : float;
  totalB18 : float;
  totalTaxA : float;
  totalTaxB : float;
  subtotal : float;
  totalDiscount : float;
  totalTax : float;
  grandTotal : float;
  roundedAmount : float
}.

End Document64.

(** *** src/app/pages/InvoicesPage.tsx *)

Module Invoices64.
Import JS B64 Document64.

(** [interface Product]. *)
Record Product : Type := mkProduct {
  _id : string;
  name : string;
  sku : string;
  unit_ : string;
  currentStock : float;
  averageCost : float;
  sellingPrice : float
}.

(** [interface FormItem]. *)
Record FormItem : Type := mkFormItem {
  id : string;
  product : string;
  itemCode : string;
  quantity : float;
  unitPrice : float;
  discount : float;
  taxCode : string;
  taxRate : float
}.

Definition calculateItemTotal (item : FormItem) : float :=
  let subtotal := mul (quantity item) (unitPrice item) in
  let discount := discount item in
  let netAmount := sub subtotal discount in
  let tax := mul netAmount (div (taxRate item) hundred) in
  add netAmount tax.

(** One turn of the [forEach] of [calculateTotals]. *)
Definition accumulate (acc : Sums) (item : FormItem) : Sums :=
  let itemSubtotal := mul (quantity item) (unitPrice item) in
  let itemDiscount := discount item in
  let netAmount := sub itemSubtotal itemDiscount in
  let subtotal := add (s_subtotal acc) itemSubtotal in
  let totalDiscount := add (s_totalDiscount acc) itemDiscount in
  if String.eqb (taxCode item) "A" then
    {| s_totalAEx := add (s_totalAEx acc) netAmount;
       s_totalB18 := s_totalB18 acc;
       s_totalTaxA :=
         add (s_totalTaxA acc) (mul netAmount (div (taxRate item) hundred));
       s_totalTaxB := s_totalTaxB acc;
       s_subtotal := subtotal;
       s_totalDiscount := totalDiscount |}
  else if String.eqb (taxCode item) "B" then
    {| s_totalAEx := s_totalAEx acc;
       s_totalB18 := add (s_totalB18 acc) netAmount;
       s_totalTaxA := s_totalTaxA acc;
       s_totalTaxB :=
         add (s_totalTaxB acc) (mul netAmount (div (taxRate item) hundred));
       s_subtotal := subtotal;
       s_totalDiscount := totalDiscount |}
  else
    {| s_totalAEx := s_totalAEx acc;
       s_totalB18 := s_totalB18 acc;
       s_totalTaxA := s_totalTaxA acc;
       s_totalTaxB := s_totalTaxB acc;
       s_subtotal := subtotal;
       s_totalDiscount := totalDiscount |}.

Definition calculateTotals (formItems : list FormItem) : Totals :=
  let acc := fold_left accumulate formItems zeroSums in
  let totalTax := add (s_totalTaxA acc) (s_totalTaxB acc) in
  let grandTotal :=
    add (sub (s_subtotal acc) (s_totalDiscount acc)) totalTax in
  let roundedAmount := div (Math_round (mul grandTotal hundred)) hundred in
  {| totalAEx := s_totalAEx acc; totalB18 := s_totalB18 acc;
     totalTaxA := s_totalTaxA acc; totalTaxB := s_totalTaxB acc;
     subtotal := s_subtotal acc; totalDiscount := s_totalDiscount acc;
     totalTax := totalTax; grandTotal := grandTotal;
     roundedAmount := roundedAmount |}.

(** An entry of [items] in [handleSubmit]'s payload
    ([interface InvoiceItem]); [description] and [unit], which are display
    strings, are left out. *)
Record InvoiceItem : Type := mkInvoiceItem {
  i_product : string;
  i_itemCode : string;
  i_quantity : float;
  i_unitPrice : float;
  i_discount : float;
  i_taxCode : string;
  i_taxRate : float;
  i_taxAmount : float;
  i_subtotal : float;
  i_totalWithTax : float
}.

(** The function [handleSubmit] maps over [formItems]. *)
Definition submitItem (products : list Product) (item : FormItem)
  : InvoiceItem :=
  let product := find (fun p => String.eqb (_id p) (product item)) products in
  let subtotal := mul (quantity item) (unitPrice item) in
  let discount := discount item in
  let netAmount := sub subtotal discount in
  let taxRate := taxRate item in
  let taxAmount := mul netAmount (div taxRate hundred) in
  let totalWithTax := add netAmount taxAmount in
  {| i_product := Invoices64.product item;
     i_itemCode :=
       or_string (itemCode item)
         (or_string (match product with Some p => sku p | None => "" end) "");
     i_quantity := quantity item;
     i_unitPrice := unitPrice item;
     i_discount := Invoices64.discount item;
     i_taxCode := taxCode item;
     i_taxRate := Invoices64.taxRate item;
     i_taxAmount := taxAmount;
     i_subtotal := subtotal;
     i_totalWithTax := totalWithTax |}.

End Invoices64.

(** *** The purchases page *)

Module Purchases64.
Import JS B64 Document64.

(** [interface FormItem] of the purchases page. *)
Record FormItem : Type := mkFormItem {
  id : string;
  product : string;
  itemCode : string;
  quantity : float;
  unitCost : float;
  discount : float;
  taxCode : string;
  taxRate : float
}.

Definition calculateItemTotal (item : FormItem) : float :=
  let subtotal := mul (quantity item) (unitCost item) in
  let discount := discount item in
  let netAmount := sub subtotal discount in
  let tax := mul netAmount (div (taxRate item) hundred) in
  add netAmount tax.

(** One turn of the [forEach] of [calculateTotals]. *)
Definition accumulate (acc : Sums) (item : FormItem) : Sums :=
  let itemSubtotal := mul (quantity item) (unitCost item) in
  let itemDiscount := discount item in
  let netAmount := sub itemSubtotal itemDiscount in
  let subtotal := add (s_subtotal acc) itemSubtotal in
  let totalDiscount := add (s_totalDiscount acc) itemDiscount in
  if String.eqb (taxCode item) "A" then
    {| s_totalAEx := add (s_totalAEx acc) netAmount;
       s_totalB18 := s_totalB18 acc;
       s_totalTaxA :=
         add (s_totalTaxA acc) (mul netAmount (div (taxRate item) hundred));
       s_totalTaxB := s_totalTaxB acc;
       s_subtotal := subtotal;
       s_totalDiscount := totalDiscount |}
  else if String.eqb (taxCode item) "B" then
    {| s_totalAEx := s_totalAEx acc;
       s_totalB18 := add (s_totalB18 acc) netAmount;
       s_totalTaxA := s_totalTaxA acc;
       s_totalTaxB :=
         add (s_totalTaxB acc) (mul netAmount (div (taxRate item) hundred));
       s_subtotal := subtotal;
       s_totalDiscount := totalDiscount |}
  else
    {| s_totalAEx := s_totalAEx acc;
       s_totalB18 := s_totalB18 acc;
       s_totalTaxA := s_totalTaxA acc;
       s_totalTaxB := s_totalTaxB acc;
       s_subtotal := subtotal;
       s_totalDiscount := totalDiscount |}.

Definition calculateTotals (formItems : list FormItem) : Totals :=
  let acc := fold_left accumulate formItems zeroSums in
  let totalTax := add (s_totalTaxA acc) (s_totalTaxB acc) in
  let grandTotal :=
    add (sub (s_subtotal acc) (s_totalDiscount acc)) totalTax in
  let roundedAmount := div (Math_round (mul grandTotal hundred)) hundred in
  {| totalAEx := s_totalAEx acc; totalB18 := s_totalB18 acc;
     totalTaxA := s_totalTaxA acc; totalTaxB := s_totalTaxB acc;
     subtotal := s_subtotal acc; totalDiscount := s_totalDiscount acc;
     totalTax := totalTax; grandTotal := grandTotal;
     roundedAmount := roundedAmount |}.

(** The entry of [items] in [handleSubmit]'s payload
    ([interface PurchaseItem]), without the display strings [itemCode],
    [description] and [unit], which are looked up in the product list. *)
Record PurchaseItem : Type := mkPurchaseItem {
  i_product : string;
  i_quantity : float;
  i_unitCost : float;
  i_discount : float;
  i_taxCode : string;
  i_taxRate : float;
  i_taxAmount : float;
  i_subtotal : float;
  i_totalWithTax : float
}.

(** The function [handleSubmit] maps over [formItems]. *)
Definition submitItem (item : FormItem) : PurchaseItem :=
  let subtotal := mul (quantity item) (unitCost item) in
  let discount := discount item in
  let netAmount := sub subtotal discount in
  let taxRate := taxRate item in
  let taxAmount := mul netAmount (div taxRate hundred) in
  let totalWithTax := add netAmount taxAmount in
  {| i_product := product item;
     i_quantity := quantity item;
     i_unitCost := unitCost item;
     i_discount := Purchases64.discount item;
     i_taxCode := taxCode item;
     i_taxRate := Purchases64.taxRate item;
     i_taxAmount := taxAmount;
     i_subtotal := subtotal;
     i_totalWithTax := totalWithTax |}.

End Purchases64.

(** *** What the statements on binary64 numbers are phrased with *)

Module Spec64.
Import JS B64 Document64.

(** The sum of [f] over the lines as the loop forms it: from 0, line
    after line, each addition rounded. *)
Definition sum64 {A : Type} (f : A -> float) (l : list A) : float :=
  fold_left (fun sum x => add sum (f x)) l zero.

(** The net amount and the tax of an invoice line, as every function of
    the page forms them. *)
Definition lineSubtotal (item : Invoices64.FormItem) : float :=
  mul (Invoices64.quantity item) (Invoices64.unitPrice item).

Definition lineNet (item : Invoices64.FormItem) : float :=
  sub (lineSubtotal item) (Invoices64.discount item).

Definition lineTax (item : Invoices64.FormItem) : float :=
  mul (lineNet item) (div (Invoices64.taxRate item) hundred).

(** One turn of the loop on a bracket accumulator: the amount [f] of the
    line is added when the line carries the code. *)
Definition inBracket (code : string) (f : Invoices64.FormItem -> float)
    (sum : float) (item : Invoices64.FormItem) : float :=
  if String.eqb (Invoices64.taxCode item) code
  then add sum (f item) else sum.

(** [grandTotal = subtotal - totalDiscount + totalTax] read in exact
    arithmetic, on the numbers the four fields stand for. *)
Definition identity_exact (t : Totals) : Prop :=
  match to_Q (grandTotal t), to_Q (subtotal t), to_Q (totalDiscount t),
        to_Q (totalTax t) with
  | Some g, Some s, Some d, Some x => (g == s - d + x)%Q
  | _, _, _, _ => False
  end.

(** How a call of [calculateItemTotal] completes: its body is five
    arithmetic statements without a [throw], so it returns. *)
Definition invoice_itemTotal_outcome (item : Invoices64.FormItem)
  : Spec.Outcome float :=
  Spec.Returns (Invoices64.calculateItemTotal item).

Definition purchase_itemTotal_outcome (item : Purchases64.FormItem)
  : Spec.Outcome float :=
  Spec.Returns (Purchases64.calculateItemTotal item).

(** A purchase line read as an invoice line: [unitCost] for [unitPrice]. *)
Definition asInvoiceItem (item : Purchases64.FormItem)
  : Invoices64.FormItem :=
  {| Invoices64.id := Purchases64.id item;
     Invoices64.product := Purchases64.product item;
     Invoices64.itemCode := Purchases64.itemCode item;
     Invoices64.quantity := Purchases64.quantity item;
     Invoices64.unitPrice := Purchases64.unitCost item;
     Invoices64.discount := Purchases64.discount item;
     Invoices64.taxCode := Purchases64.taxCode item;
     Invoices64.taxRate := Purchases64.taxRate item |}.

End Spec64.

Module Examples64.
Import B64.

Definition invoiceLine (q u d : float) (code : string) (r : float)
  : Invoices64.FormItem :=
  {| Invoices64.id := "1"; Invoices64.product := "p1";
     Invoices64.itemCode := "sku1";
     Invoices64.quantity := q; Invoices64.unitPrice := u;
     Invoices64.discount := d;
     Invoices64.taxCode := code; Invoices64.taxRate := r |}.

Definition purchaseLine (q u d : float) (code : string) (r : float)
  : Purchases64.FormItem :=
  {| Purchases64.id := "1"; Purchases64.product := "p1";
     Purchases64.itemCode := "sku1";
     Purchases64.quantity := q; Purchases64.unitCost := u;
     Purchases64.discount := d;
     Purchases64.taxCode := code; Purchases64.taxRate := r |}.

(** One unit at 10, code B at 18%. *)
Definition tenAtB : Invoices64.FormItem :=
  invoiceLine (of_Z 1) (of_Z 10) zero "B" (of_Z 18).

(** One unit at 4.25, code B at 18%. *)
Definition fourTwentyFiveAtB : Invoices64.FormItem :=
  invoiceLine (of_Z 1) (decimal 425 100) zero "B" (of_Z 18).

(** One unit at 39, code B at 18%. *)
Definition thirtyNineAtB : Invoices64.FormItem :=
  invoiceLine (of_Z 1) (of_Z 39) zero "B" (of_Z 18).

(** Scenario 4 of the specification on the purchase form, which has a
    discount input: [{1, 100, 150, A}]. *)
Definition overDiscounted : Purchases64.FormItem :=
  purchaseLine (of_Z 1) (of_Z 100) (of_Z 150) "A" zero.

(** A credit of an eighth: the grand total is -0.125. *)
Definition halfCentCredit : Invoices64.FormItem :=
  invoiceLine (of_Z 1) (decimal (-125) 1000) zero "A" zero.

(** One unit at 500 with 100 off, code A. *)
Definition lineA : Invoices64.FormItem :=
  invoiceLine (of_Z 1) (of_Z 500) (of_Z 100) "A" zero.

(** Three units at 0.1 with 0.2 off, outside both brackets. *)
Definition lineNone : Invoices64.FormItem :=
  invoiceLine (of_Z 3) (decimal 1 10) (decimal 2 10) "None" zero.

End Examples64.

(** * Theorems *)

(** ** Sums over the line items *)

Module SumFacts.
Import JS Document Spec.
Local Open Scope Q_scope.

Lemma sumOver_app {A : Type} (f : A -> number) (l1 l2 : list A) :
  sumOver f (l1 ++ l2) == sumOver f l1 + sumOver f l2.
Proof.
  induction l1 as [|x l1 IH]; simpl.
  - ring.
  - rewrite IH. ring.
Qed.

Lemma sumOver_insert {A : Type} (f : A -> number) (l1 l2 : list A) (x : A) :
  sumOver f (l1 ++ x :: l2) == sumOver f (l1 ++ l2) + f x.
Proof.
  rewrite !sumOver_app. simpl. ring.
Qed.

Lemma sumOver_map {A B : Type} (g : A -> B) (f : B -> number) (l : list A) :
  sumOver f (map g l) = sumOver (fun x => f (g x)) l.
Proof.
  induction l as [|x l IH]; simpl; [reflexivity | now rewrite IH].
Qed.

End SumFacts.

(** ** The invoice totals *)

Module InvoiceFacts.
Import JS Document Spec Invoices InvoiceSpec SumFacts.
Local Open Scope Q_scope.

(** The three cases of the bracket test on [item]: code A, code B,
    neither. *)
Ltac bracket_cases item :=
  destruct (String.eqb_spec (taxCode item) "A");
  destruct (String.eqb_spec (taxCode item) "B");
  try congruence.

Ltac sums_fields :=
  cbn [s_totalAEx s_totalB18 s_totalTaxA s_totalTaxB s_subtotal
       s_totalDiscount].

(** The six accumulators after the loop, from any starting values. *)
Lemma inv_loop_sums (l : list FormItem) (acc : Sums) :
  let r := fold_left accumulate l acc in
  s_totalAEx r == s_totalAEx acc + sumOver (inBracket "A" netAmount) l /\
  s_totalB18 r == s_totalB18 acc + sumOver (inBracket "B" netAmount) l /\
  s_totalTaxA r == s_totalTaxA acc + sumOver (inBracket "A" taxAmount) l /\
  s_totalTaxB r == s_totalTaxB acc + sumOver (inBracket "B" taxAmount) l /\
  s_subtotal r == s_subtotal acc + sumOver lineSubtotal l /\
  s_totalDiscount r == s_totalDiscount acc + sumOver discount l.
Proof.
  revert acc. induction l as [|item l IH]; intro acc; simpl.
  - repeat split; ring.
  - destruct (IH (accumulate acc item)) as (HA & HB & HTA & HTB & HS & HD).
    rewrite HA, HB, HTA, HTB, HS, HD. clear.
    unfold accumulate, inBracket, taxAmount, netAmount, lineSubtotal.
    bracket_cases item; sums_fields; repeat split; ring.
Qed.

(** Every field of the returned object, by its meaning. *)
Lemma inv_totals_meaning (items : list FormItem) :
  let t := calculateTotals items in
  totalAEx t == sumOver (inBracket "A" netAmount) items /\
  totalB18 t == sumOver (inBracket "B" netAmount) items /\
  totalTaxA t == sumOver (inBracket "A" taxAmount) items /\
  totalTaxB t == sumOver (inBracket "B" taxAmount) items /\
  subtotal t == sumOver lineSubtotal items /\
  totalDiscount t == sumOver discount items /\
  totalTax t = totalTaxA t + totalTaxB t /\
  grandTotal t = subtotal t - totalDiscount t + totalTax t /\
  roundedAmount t = Math_round (grandTotal t * 100) / 100.
Proof.
  destruct (inv_loop_sums items zeroSums) as (HA & HB & HTA & HTB & HS & HD).
  cbv zeta in *. unfold calculateTotals.
  cbn [totalAEx totalB18 totalTaxA totalTaxB subtotal totalDiscount totalTax
       grandTotal roundedAmount].
  unfold zeroSums in *. revert HA HB HTA HTB HS HD. sums_fields.
  intros HA HB HTA HTB HS HD.
  repeat split; try reflexivity;
    [rewrite HA | rewrite HB | rewrite HTA | rewrite HTB | rewrite HS
    | rewrite HD]; ring.
Qed.

(** What one more line, anywhere in the list, adds to the totals. *)
Lemma inv_insert_line (pre post : list FormItem) (item : FormItem) :
  let t := calculateTotals (pre ++ item :: post) in
  let t0 := calculateTotals (pre ++ post) in
  totalAEx t == totalAEx t0 + inBracket "A" netAmount item /\
  totalB18 t == totalB18 t0 + inBracket "B" netAmount item /\
  totalTaxA t == totalTaxA t0 + inBracket "A" taxAmount item /\
  totalTaxB t == totalTaxB t0 + inBracket "B" taxAmount item /\
  subtotal t == subtotal t0 + lineSubtotal item /\
  totalDiscount t == totalDiscount t0 + discount item.
Proof.
  intros t t0.
  destruct (inv_totals_meaning (pre ++ item :: post))
    as (HA & HB & HTA & HTB & HS & HD & _).
  destruct (inv_totals_meaning (pre ++ post))
    as (HA0 & HB0 & HTA0 & HTB0 & HS0 & HD0 & _).
  cbv zeta in *. subst t t0.
  rewrite HA, HB, HTA, HTB, HS, HD, HA0, HB0, HTA0, HTB0, HS0, HD0.
  repeat split; apply sumOver_insert.
Qed.

End InvoiceFacts.

(** ** The purchase totals are the invoice totals on [unitCost] *)

Module PurchaseFacts.
Import JS Document Spec PurchaseSpec.
Local Open Scope Q_scope.

Lemma pur_loop_as_invoice (l : list Purchases.FormItem) (acc : Sums) :
  fold_left Purchases.accumulate l acc =
  fold_left Invoices.accumulate (map asInvoiceItem l) acc.
Proof.
  revert acc. induction l as [|item l IH]; intro acc.
  - reflexivity.
  - cbn [fold_left map]. rewrite IH. reflexivity.
Qed.

Lemma pur_totals_as_invoice (items : list Purchases.FormItem) :
  Purchases.calculateTotals items =
  Invoices.calculateTotals (map asInvoiceItem items).
Proof.
  unfold Purchases.calculateTotals, Invoices.calculateTotals.
  rewrite pur_loop_as_invoice. reflexivity.
Qed.

Lemma pur_itemTotal_as_invoice (item : Purchases.FormItem) :
  Purchases.calculateItemTotal item =
  Invoices.calculateItemTotal (asInvoiceItem item).
Proof. reflexivity. Qed.

Lemma pur_insert_as_invoice (pre post : list Purchases.FormItem)
    (item : Purchases.FormItem) :
  map asInvoiceItem (pre ++ item :: post) =
  map asInvoiceItem pre ++ asInvoiceItem item :: map asInvoiceItem post.
Proof. now rewrite map_app. Qed.

End PurchaseFacts.

(** ** The document totals of the invoice and purchase forms *)

Module DocumentTotals.
Import JS Document Spec SumFacts.
Local Open Scope Q_scope.

(** C8.  On the empty list the totals computation returns, and every field
    of the object it returns is zero. *)
Theorem empty_list_all_zero :
  exists t : Totals,
    Invoices.calculateTotals [] = t /\
    subtotal t == 0 /\ totalDiscount t == 0 /\
    totalAEx t == 0 /\ totalB18 t == 0 /\
    totalTaxA t == 0 /\ totalTaxB t == 0 /\
    totalTax t == 0 /\ grandTotal t == 0 /\ roundedAmount t == 0.
Proof.
  eexists. split; [reflexivity|].
  repeat split; vm_compute; reflexivity.
Qed.


(** Scenario 2 of the specification, evaluated on the invoice form. *)
Example scenario_two_lines :
  let t := Invoices.calculateTotals [Examples.lineB; Examples.lineA] in
  subtotal t == 2500 /\ totalDiscount t == 100 /\ totalAEx t == 400 /\
  totalB18 t == 2000 /\ totalTaxB t == 360 /\ totalTax t == 360 /\
  grandTotal t == 2760 /\ roundedAmount t == 2760.
Proof. repeat split; vm_compute; reflexivity. Qed.

End DocumentTotals.

(** ** Rounding of the grand total *)

Module Rounding.
Import JS Document Spec.
Local Open Scope Q_scope.

Lemma Qfloor_unique (z : Z) (y : Q) :
  inject_Z z <= y -> y < inject_Z (z + 1) -> Qfloor y = z.
Proof.
  intros Hlo Hhi.
  pose proof (Qfloor_le y) as Fle. pose proof (Qlt_floor y) as Flt.
  assert (A : inject_Z (Qfloor y) < inject_Z (z + 1)) by lra.
  assert (B : inject_Z z < inject_Z (Qfloor y + 1)) by lra.
  rewrite <- Zlt_Qlt in A, B. lia.
Qed.

(** [Math.round] picks the nearest integer, the upper one on a tie. *)
Lemma Math_round_nearest (x : Q) :
  x - (1 # 2) < Math_round x /\ Math_round x <= x + (1 # 2).
Proof.
  unfold Math_round.
  pose proof (Qfloor_le (x + (1 # 2))) as Fle.
  pose proof (Qlt_floor (x + (1 # 2))) as Flt.
  rewrite inject_Z_plus in Flt. change (inject_Z 1) with 1 in Flt.
  split; lra.
Qed.

(** C2, as the claim states it, fails on a credit of an eighth: the grand
    total is [-0.125], [Math.round(-12.5)] is [-12] and the rounded amount
    [-0.12], where rounding half away from zero gives [-0.13]. *)
Lemma roundedAmount_not_half_away_from_zero :
  let t := Invoices.calculateTotals [Examples.halfCentCredit] in
  grandTotal t == -0.125 /\
  roundedAmount t == -0.12 /\
  roundHalfAwayFromZero (grandTotal t) == -0.13 /\
  ~ roundedAmount t == roundHalfAwayFromZero (grandTotal t).
Proof.
  repeat split; try (vm_compute; reflexivity).
  intro H. vm_compute in H. discriminate H.
Qed.

End Rounding.

(** ** The quotation totals *)

Module QuotationFacts.
Import JS Spec SumFacts Quotations QuotationSpec.
Local Open Scope Q_scope.

(** The preview of a row is the [total] submitted for it. *)
Lemma quo_preview_matches_submission (item : FormItem) :
  calculateItemTotal item = lineTotal item.
Proof. reflexivity. Qed.

(** C4: the code at a discounted line.  Two units at 100 with 40 off,
    taxed at 25%: the line total sent with the quotation is 200
    ([200 - 40 + 40]), [subtotal - discount + totalTax] is 200, and the
    grand total sent with it is 240. *)
Theorem quotation_grandTotal_ignores_discount :
  let items := [Examples.discountedQuote] in
  let t := calculateTotals items in
  subtotal t == 200 /\ totalTax t == 40 /\ grandTotal t == 240 /\
  sumOver lineTotal items == 200 /\
  calculateItemTotal Examples.discountedQuote == 200 /\
  subtotal t - sumOver discount items + totalTax t == 200 /\
  ~ grandTotal t == subtotal t - sumOver discount items + totalTax t.
Proof.
  repeat split; try (vm_compute; reflexivity).
  intro H. vm_compute in H. discriminate H.
Qed.

End QuotationFacts.

(** ** The tax rate of a form item follows its tax code *)

Module FormInvariant.
Import JS Invoices InvoiceSpec.
Local Open Scope Q_scope.

Lemma taxConsistent_iff (item : FormItem) :
  taxConsistent item = true <->
  (taxCode item = "A" -> taxRate item == 0) /\
  (taxCode item = "B" -> taxRate item == 18).
Proof.
  unfold taxConsistent. rewrite andb_true_iff.
  destruct (String.eqb_spec (taxCode item) "A") as [eA|nA];
    destruct (String.eqb_spec (taxCode item) "B") as [eB|nB];
    rewrite ?Qeq_bool_iff; intuition congruence.
Qed.

(** [updateItem] on the tax code looks the rate up in [TAX_CODES]. *)
Lemma updateMatched_taxCode (products : list Product) (item : FormItem)
    (v : string) :
  let updated := updateMatched products item (field_taxCode v) in
  taxCode updated = v /\
  (v = "A" -> taxRate updated = 0) /\
  (v = "B" -> taxRate updated = 18) /\
  (v <> "A" -> v <> "B" -> taxRate updated = taxRate item).
Proof.
  unfold updateMatched, find, TAX_CODES.
  cbn [assign List.find value rate].
  destruct (String.eqb_spec "A" v) as [eA|nA].
  - subst v. cbn. repeat split; congruence.
  - destruct (String.eqb_spec "B" v) as [eB|nB].
    + subst v. cbn. repeat split; congruence.
    + cbn. repeat split; congruence.
Qed.

(** On every other field but the rate, [updateItem] leaves code and rate
    as they are. *)
Lemma updateMatched_other (products : list Product) (item : FormItem)
    (fv : FieldValue) :
  exceptTaxRate fv = true ->
  (forall v, fv <> field_taxCode v) ->
  let updated := updateMatched products item fv in
  taxCode updated = taxCode item /\ taxRate updated = taxRate item.
Proof.
  intros Hallowed Hcode.
  destruct fv as [v|v|v|v|v|v|v|v]; try discriminate Hallowed;
    try (split; reflexivity).
  - unfold updateMatched. destruct (truthy_string v); [|split; reflexivity].
    destruct (find _ products); split; reflexivity.
  - exfalso. exact (Hcode v eq_refl).
Qed.

Lemma updateMatched_consistent (products : list Product) (item : FormItem)
    (fv : FieldValue) :
  exceptTaxRate fv = true ->
  taxConsistent item = true ->
  taxConsistent (updateMatched products item fv) = true.
Proof.
  intros Hallowed Hitem.
  destruct fv as [v|v|v|v|v|v|v|v];
    try (destruct (updateMatched_other products item _ Hallowed)
           as (Hc & Hr); [intros w; discriminate|];
         unfold taxConsistent in *; cbv zeta in Hc, Hr;
         rewrite Hc, Hr; exact Hitem).
  destruct (updateMatched_taxCode products item v) as (Hc & HA & HB & Hn).
  cbv zeta in *. apply taxConsistent_iff. rewrite Hc. split; intro E.
  - rewrite (HA E). reflexivity.
  - rewrite (HB E). reflexivity.
Qed.

Lemma updateItem_consistent (products : list Product)
    (formItems : list FormItem) (id0 : string) (fv : FieldValue) :
  exceptTaxRate fv = true ->
  forallb taxConsistent formItems = true ->
  forallb taxConsistent (updateItem products formItems id0 fv) = true.
Proof.
  intros Hallowed. unfold updateItem.
  induction formItems as [|item l IH]; cbn [map forallb]; [trivial|].
  rewrite !andb_true_iff. intros [Hitem Hl]. split; [|exact (IH Hl)].
  destruct (String.eqb (id item) id0); [|exact Hitem].
  now apply updateMatched_consistent.
Qed.

Lemma addItem_consistent (now : string) (formItems : list FormItem) :
  forallb taxConsistent formItems = true ->
  forallb taxConsistent (addItem now formItems) = true.
Proof.
  intro H. unfold addItem. rewrite forallb_app, H. reflexivity.
Qed.

Lemma removeItem_consistent (formItems : list FormItem) (id0 : string) :
  forallb taxConsistent formItems = true ->
  forallb taxConsistent (removeItem formItems id0) = true.
Proof.
  intro H. unfold removeItem.
  destruct (1 <? length formItems)%nat; [|exact H].
  rewrite forallb_forall in *. intros x Hx.
  apply filter_In in Hx. now apply H.
Qed.

(** Every item of a list reached from the initial item by [addItem] and
    by [updateItem] on any field other than [taxRate] itself has a rate
    that agrees with its code. *)
Lemma reachable_items_consistent :
  forall (products : list Product) (formItems : list FormItem),
    reachable exceptTaxRate products formItems ->
    Forall (fun item =>
              (taxCode item = "A" -> taxRate item == 0) /\
              (taxCode item = "B" -> taxRate item == 18))
           formItems.
Proof.
  intros products formItems Hreach.
  apply Forall_forall. intros item Hin.
  apply taxConsistent_iff. revert item Hin. apply forallb_forall.
  induction Hreach as [|now l _ IH|l id0 fv Hallowed _ IH].
  - reflexivity.
  - now apply addItem_consistent.
  - now apply updateItem_consistent.
Qed.

Lemma formInput_exceptTaxRate (fv : FieldValue) :
  formInput fv = true -> exceptTaxRate fv = true.
Proof. destruct fv; intro H; try discriminate H; reflexivity. Qed.

(** C9.  Every item of a form reached from the initial item by the
    operations of the page, [addItem], [removeItem] and [updateItem] on a
    field an input of the form edits, has a rate that agrees with its
    code: code A implies rate 0 and code B implies rate 18. *)
Theorem form_items_consistent :
  forall (products : list Product) (formItems : list FormItem),
    formReachable products formItems ->
    Forall (fun item =>
              (taxCode item = "A" -> taxRate item == 0) /\
              (taxCode item = "B" -> taxRate item == 18))
           formItems.
Proof.
  intros products formItems Hreach.
  apply Forall_forall. intros item Hin.
  apply taxConsistent_iff. revert item Hin. apply forallb_forall.
  induction Hreach as [|now l _ IH|l id0 _ IH|l id0 fv Hinput _ IH].
  - reflexivity.
  - now apply addItem_consistent.
  - now apply removeItem_consistent.
  - apply updateItem_consistent; [|exact IH].
    now apply formInput_exceptTaxRate.
Qed.

Lemma form_items_consistent_witness :
  let formItems :=
    removeItem
      (updateItem [] (addItem "2" initialFormItems) "2" (field_taxCode "B"))
      "1" in
  formReachable [] formItems /\
  taxCode (hd (blankItem "0") formItems) = "B" /\
  Forall (fun item =>
            (taxCode item = "A" -> taxRate item == 0) /\
            (taxCode item = "B" -> taxRate item == 18))
         formItems.
Proof.
  assert (Hreach : formReachable []
            (removeItem
               (updateItem [] (addItem "2" initialFormItems) "2"
                  (field_taxCode "B"))
               "1")).
  { apply form_removeItem. apply form_updateItem; [reflexivity|].
    apply form_addItem. apply form_initial. }
  split; [exact Hreach|]. split; [reflexivity|].
  exact (form_items_consistent [] _ Hreach).
Defined.

End FormInvariant.

(** ** The permission lookups *)

Module PermissionFacts.
Import Permissions.

(** C10.  Without a role, [hasPermission] and [hasAnyPermission] return
    [false], whatever permission or list of permissions is asked for. *)
Theorem no_role_no_permission :
  forall (p : Permission) (ps : list Permission),
    hasPermission None p = false /\ hasAnyPermission None ps = false.
Proof.
  intros p ps. split; reflexivity.
Qed.

(** The same holds of [canEdit], which goes through [hasAnyPermission]. *)
Lemma no_role_cannot_edit : canEdit None = false.
Proof. reflexivity. Qed.

(** A viewer holds read permissions only. *)
Lemma viewer_cannot_edit : canEdit (Some viewer) = false.
Proof. reflexivity. Qed.

End PermissionFacts.

(** * Further properties of the code *)

(** ** The role table *)

Module RoleTable.
Import Permissions.

(** An administrator holds every permission of the table. *)
Theorem admin_holds_every_permission :
  forall role : option UserRole,
    isAdmin role = true ->
    forall p : Permission, hasPermission role p = true.
Proof.
  intros [[]|] Hadmin p; try discriminate Hadmin.
  destruct p; reflexivity.
Qed.

Lemma admin_holds_every_permission_witness :
  isAdmin (Some admin) = true /\
  forall p : Permission, hasPermission (Some admin) p = true.
Proof.
  split; [reflexivity|].
  exact (admin_holds_every_permission (Some admin) eq_refl).
Defined.

(** [canEdit] holds of the administrator, the stock manager and the sales
    role, and of nobody else: not of a viewer, not without a role. *)
Theorem canEdit_iff_editing_role :
  forall role : option UserRole,
    canEdit role = true <->
    role = Some admin \/ role = Some stock_manager \/ role = Some sales.
Proof.
  intros [[]|]; split; intro H; try reflexivity; try discriminate H; auto;
    destruct H as [H|[H|H]]; discriminate H.
Qed.

(** [hasAnyPermission] is the disjunction of [hasPermission] over the
    list: it holds exactly when some permission of the list is held. *)
Theorem hasAnyPermission_iff_some_held :
  forall (role : option UserRole) (ps : list Permission),
    hasAnyPermission role ps = true <->
    exists p : Permission, In p ps /\ hasPermission role p = true.
Proof.
  intros [r|] ps; cbn [hasAnyPermission hasPermission].
  - apply existsb_exists.
  - split; [discriminate|]. intros (p & _ & H). discriminate H.
Qed.

End RoleTable.

(** ** The authentication context and the suppliers page *)

Module Session.
Import JS Permissions Auth.

(** The suppliers page offers its editing actions to an administrator
    only: no other role holds a create, update or delete permission on
    suppliers. *)
Theorem canEditSuppliers_iff_admin :
  forall s : AuthState,
    Suppliers.canEditSuppliers s = true <-> userRole s = Some admin.
Proof.
  intro s. unfold Suppliers.canEditSuppliers, ctx_hasPermission.
  destruct (userRole s) as [[]|]; split; intro H;
    try reflexivity; try discriminate H.
Qed.

Lemma truthy_string_nonempty (v : string) :
  truthy_string v = true -> v <> "".
Proof.
  unfold truthy_string. intros H E. subst v. discriminate H.
Qed.

(** [getLocation] never returns the empty string: it is the city, the
    country, both joined by a comma, or a dash. *)
Theorem getLocation_never_empty :
  forall contact : option Suppliers.Contact,
    Suppliers.getLocation contact <> "".
Proof.
  intros [[city country]|]; [|discriminate].
  unfold Suppliers.getLocation. cbn [Suppliers.city Suppliers.country].
  destruct city as [c|]; destruct country as [k|];
    try destruct (truthy_string c) eqn:Hc;
    try destruct (truthy_string k) eqn:Hk;
    cbn; try discriminate;
    try apply truthy_string_nonempty in Hc;
    try apply truthy_string_nonempty in Hk;
    try assumption.
  destruct c; [congruence | discriminate].
Qed.

End Session.

(** ** The item operations of the invoice form *)

Module FormOperations.
Import JS Invoices.
Local Open Scope Q_scope.

Lemma filter_absent_id (l : list FormItem) (id0 : string) :
  ~ In id0 (map id l) ->
  filter (fun item => negb (String.eqb (id item) id0)) l = l.
Proof.
  induction l as [|a l IH]; cbn [map filter]; intro Hnot; [reflexivity|].
  destruct (String.eqb_spec (id a) id0) as [E|N]; cbn [negb].
  - exfalso. apply Hnot. left. exact E.
  - rewrite IH; [reflexivity|]. intro H. apply Hnot. right. exact H.
Qed.

Lemma filter_drops_at_most_one (l : list FormItem) (id0 : string) :
  NoDup (map id l) ->
  (length l <=
   S (length (filter (fun item => negb (String.eqb (id item) id0)) l)))%nat.
Proof.
  induction l as [|a l IH]; cbn [map filter length]; intro Hnd; [lia|].
  inversion Hnd as [|x xs Hnotin Hnd' E]; subst.
  destruct (String.eqb_spec (id a) id0) as [E|N]; cbn [negb length].
  - subst id0. rewrite (filter_absent_id l (id a) Hnotin). lia.
  - specialize (IH Hnd'). lia.
Qed.

(** When the items carry distinct ids, [removeItem] takes at most one of
    them away and never the last one: a form with an item keeps an item. *)
Theorem removeItem_keeps_one :
  forall (formItems : list FormItem) (id0 : string),
    NoDup (map id formItems) ->
    formItems <> [] ->
    removeItem formItems id0 <> [] /\
    (length formItems <= S (length (removeItem formItems id0)))%nat.
Proof.
  intros l id0 Hnd Hne. unfold removeItem.
  destruct (Nat.ltb_spec 1 (length l)) as [Hlen|Hlen].
  - pose proof (filter_drops_at_most_one l id0 Hnd) as Hdrop.
    split; [|exact Hdrop].
    intro E. rewrite E in Hdrop. cbn [length] in Hdrop. lia.
  - split; [exact Hne | lia].
Qed.

Lemma removeItem_keeps_one_witness :
  let formItems := addItem "2" initialFormItems in
  NoDup (map id formItems) /\
  formItems <> [] /\
  removeItem formItems "2" <> [] /\
  (length formItems <= S (length (removeItem formItems "2")))%nat.
Proof.
  assert (Hnd : NoDup (map id (addItem "2" initialFormItems))).
  { repeat constructor; cbn; intuition discriminate. }
  assert (Hne : addItem "2" initialFormItems <> []) by discriminate.
  split; [exact Hnd|]. split; [exact Hne|].
  exact (removeItem_keeps_one _ "2" Hnd Hne).
Defined.

(** What [removeItem] keeps: on a form of two items or more, the items
    whose id differs from the one given, and on a shorter form every
    item. *)
Theorem removeItem_membership :
  forall (formItems : list FormItem) (id0 : string) (item : FormItem),
    In item (removeItem formItems id0) <->
    In item formItems /\
    ((1 < length formItems)%nat -> id item <> id0).
Proof.
  intros l id0 item. unfold removeItem.
  destruct (Nat.ltb_spec 1 (length l)) as [Hlen|Hlen].
  - rewrite filter_In, negb_true_iff, String.eqb_neq. intuition.
  - split; [intro H; split; [exact H | lia] | intros [H _]; exact H].
Qed.

(** [updateItem] with an id no item carries changes nothing. *)
Theorem updateItem_unknown_id :
  forall (products : list Product) (formItems : list FormItem)
         (id0 : string) (fv : FieldValue),
    ~ In id0 (map id formItems) ->
    updateItem products formItems id0 fv = formItems.
Proof.
  intros products l id0 fv. unfold updateItem.
  induction l as [|a l IH]; cbn [map]; intro Hnot; [reflexivity|].
  destruct (String.eqb_spec (id a) id0) as [E|N].
  - exfalso. apply Hnot. left. exact E.
  - rewrite IH; [reflexivity|]. intro H. apply Hnot. right. exact H.
Qed.

Lemma updateItem_unknown_id_witness :
  ~ In "7" (map id initialFormItems) /\
  updateItem [] initialFormItems "7" (field_quantity 5) = initialFormItems.
Proof.
  assert (Hnot : ~ In "7" (map id initialFormItems)).
  { cbn. intuition discriminate. }
  split; [exact Hnot|].
  exact (updateItem_unknown_id [] initialFormItems "7" (field_quantity 5)
           Hnot).
Defined.

(** [updateItem] keeps the number and the order of the items, and every
    item whose id differs from the one given stays as it is, in its
    place. *)
Theorem updateItem_other_items :
  forall (products : list Product) (formItems : list FormItem)
         (id0 : string) (fv : FieldValue) (n : nat) (item : FormItem),
    nth_error formItems n = Some item ->
    id item <> id0 ->
    nth_error (updateItem products formItems id0 fv) n = Some item /\
    length (updateItem products formItems id0 fv) = length formItems.
Proof.
  intros products l id0 fv n item Hnth Hid. unfold updateItem.
  split; [|apply length_map].
  rewrite nth_error_map, Hnth. cbn [option_map].
  apply String.eqb_neq in Hid. rewrite Hid. reflexivity.
Qed.

Lemma updateItem_other_items_witness :
  let formItems := addItem "2" initialFormItems in
  nth_error formItems 0 = Some (blankItem "1") /\
  id (blankItem "1") <> "2" /\
  nth_error (updateItem [] formItems "2" (field_taxCode "B")) 0
    = Some (blankItem "1") /\
  length (updateItem [] formItems "2" (field_taxCode "B"))
    = length formItems.
Proof.
  assert (Hid : id (blankItem "1") <> "2") by discriminate.
  split; [reflexivity|]. split; [exact Hid|].
  exact (updateItem_other_items [] (addItem "2" initialFormItems) "2"
           (field_taxCode "B") 0 (blankItem "1") eq_refl Hid).
Defined.

End FormOperations.

(** ** More on the invoice totals *)

Module TotalsFacts.
Import JS Document Spec SumFacts Invoices InvoiceSpec.
Local Open Scope Q_scope.










End TotalsFacts.

(** ** Submitting the invoice form *)

Module Submission.
Import JS Document Spec SumFacts Invoices InvoiceSubmit.
Local Open Scope Q_scope.

Lemma lt_number_false (a b : Q) : lt_number a b = false <-> b <= a.
Proof.
  unfold lt_number. rewrite negb_false_iff. apply Qle_bool_iff.
Qed.

Lemma stockShortage_None (products : list Product) (items : list FormItem) :
  stockShortage products items = None <->
  Forall (fun item =>
            forall p,
              find (fun p => String.eqb (_id p) (product item)) products
                = Some p ->
              quantity item <= currentStock p)
         items.
Proof.
  induction items as [|item rest IH]; cbn [stockShortage].
  - split; [constructor | reflexivity].
  - destruct (find _ products) as [p|] eqn:Hfind.
    + destruct (lt_number (currentStock p) (quantity item)) eqn:Hlt.
      * split; [discriminate|]. intro H. inversion H as [|x xs Hx _]; subst.
        specialize (Hx p Hfind). apply lt_number_false in Hx. congruence.
      * rewrite IH. split.
        -- intro H. constructor; [|exact H]. intros q Hq.
           rewrite Hfind in Hq. injection Hq as <-.
           now apply lt_number_false.
        -- intro H. now inversion H.
    + rewrite IH. split.
      * intro H. constructor; [|exact H]. intros q Hq.
        rewrite Hfind in Hq. discriminate Hq.
      * intro H. now inversion H.
Qed.

Lemma no_missing_product (items : list FormItem) :
  existsb (fun item => negb (truthy_string (product item))) items = false <->
  Forall (fun item => product item <> "") items.
Proof.
  induction items as [|item rest IH]; cbn [existsb].
  - split; [constructor | reflexivity].
  - rewrite orb_false_iff, IH. unfold truthy_string.
    rewrite negb_involutive. split.
    + intros [H1 H2]. constructor; [|exact H2].
      now apply String.eqb_neq.
    + intro H. inversion H; subst. split; [|assumption].
      now apply String.eqb_neq.
Qed.

Lemma handleSubmit_inr_iff :
  forall (products : list Product) (f : Form),
    (exists data : InvoiceData, handleSubmit products f = inr data) <->
    formClient f <> "" /\
    Forall (fun item => product item <> "") (formItems f) /\
    Forall (fun item =>
              forall p,
                find (fun p => String.eqb (_id p) (product item)) products
                  = Some p ->
                quantity item <= currentStock p)
           (formItems f).
Proof.
  intros products f. unfold handleSubmit.
  rewrite <- no_missing_product, <- stockShortage_None.
  unfold truthy_string at 1. rewrite negb_involutive.
  destruct (String.eqb_spec (formClient f) "") as [E|N].
  - split; [intros (d & H); discriminate H | intros (H & _); contradiction].
  - destruct (existsb _ (formItems f)).
    + split; [intros (d & H); discriminate H
             | intros (_ & H & _); discriminate H].
    + destruct (stockShortage products (formItems f)) as [[p item]|].
      * split; [intros (d & H); discriminate H
               | intros (_ & _ & H); discriminate H].
      * split; [intros _; repeat split; assumption
               | intros _; eexists; reflexivity].
Qed.

(** [handleSubmit] sends the invoice exactly when a client is selected,
    every line has a product, and no line asks for more than the stock of
    its product; a product that is not in the loaded list is not
    checked. *)
Theorem handleSubmit_sends_iff :
  forall (products : list Product) (f : Form),
    (exists data : InvoiceData, handleSubmit products f = inr data) <->
    formClient f <> "" /\
    Forall (fun item => product item <> "") (formItems f) /\
    Forall (fun item =>
              forall p,
                find (fun p => String.eqb (_id p) (product item)) products
                  = Some p ->
                quantity item <= currentStock p)
           (formItems f).
Proof.
  exact handleSubmit_inr_iff.
Qed.

(** The data [handleSubmit] sends name a client and hold one entry a line,
    each with its product. *)
Theorem submitted_invoice_consistent :
  forall (products : list Product) (f : Form) (data : InvoiceData),
    handleSubmit products f = inr data ->
    d_client data <> "" /\
    length (d_items data) = length (formItems f) /\
    Forall (fun entry => i_product entry <> "") (d_items data).
Proof.
  intros products f data Hsend.
  assert (Hex : exists d, handleSubmit products f = inr d)
    by (exists data; exact Hsend).
  apply handleSubmit_inr_iff in Hex as (Hclient & Hprod & _).
  unfold handleSubmit in Hsend.
  destruct (negb (truthy_string (formClient f))); [discriminate Hsend|].
  destruct (existsb _ (formItems f)); [discriminate Hsend|].
  destruct (stockShortage products (formItems f)) as [[p item]|];
    [discriminate Hsend|].
  injection Hsend as <-.
  cbn [d_client d_items d_totals].
  repeat split; try assumption.
  - apply length_map.
  - apply Forall_map. exact Hprod.
Qed.

Lemma submitted_invoice_consistent_witness :
  exists data : InvoiceData,
    handleSubmit [MoreExamples.widget] MoreExamples.readyForm = inr data /\
    d_client data <> "" /\
    length (d_items data)
      = length (formItems MoreExamples.readyForm) /\
    Forall (fun entry => i_product entry <> "") (d_items data).
Proof.
  eexists. split; [reflexivity|].
  exact (submitted_invoice_consistent [MoreExamples.widget]
           MoreExamples.readyForm _ eq_refl).
Defined.

(** A form just opened cannot be sent: [handleSubmit] asks for a client,
    and once a client with an id is selected it asks for the product of
    the blank line. *)
Theorem fresh_form_is_not_sent :
  forall (products : list Product) (today in30days : string) (f : Form)
         (client : Client),
    c_id client <> "" ->
    handleSubmit products (openCreateModal today in30days f)
      = inl select_client /\
    handleSubmit products
      (selectClient client (openCreateModal today in30days f))
      = inl select_products.
Proof.
  intros products today in30days f client Hid. split; [reflexivity|].
  unfold handleSubmit, selectClient, openCreateModal.
  cbn [formClient formItems]. unfold truthy_string at 1.
  apply String.eqb_neq in Hid. rewrite Hid. reflexivity.
Qed.

Lemma fresh_form_is_not_sent_witness :
  let client :=
    {| c_id := "c1"; c_name := "Acme"; code := None; taxId := None;
       contact := None; paymentTerms := None |} in
  c_id client <> "" /\
  handleSubmit [] (openCreateModal "2026-01-01" "2026-01-31"
                     MoreExamples.readyForm)
    = inl select_client /\
  handleSubmit []
    (selectClient client
       (openCreateModal "2026-01-01" "2026-01-31" MoreExamples.readyForm))
    = inl select_products.
Proof.
  assert (Hid : c_id {| c_id := "c1"; c_name := "Acme"; code := None;
                        taxId := None; contact := None;
                        paymentTerms := None |} <> "") by discriminate.
  split; [exact Hid|].
  exact (fresh_form_is_not_sent [] "2026-01-01" "2026-01-31"
           MoreExamples.readyForm _ Hid).
Defined.

Lemma filter_filter_implied {A : Type} (p q : A -> bool) (l : list A) :
  (forall x, p x = true -> q x = true) ->
  filter p (filter q l) = filter p l.
Proof.
  intro Himp. induction l as [|x l IH]; cbn [filter]; [reflexivity|].
  destruct (q x) eqn:Hq; cbn [filter].
  - rewrite IH. reflexivity.
  - destruct (p x) eqn:Hp; [|exact IH].
    rewrite (Himp x Hp) in Hq. discriminate Hq.
Qed.

(** A cancelled invoice counts in none of the three figures above the
    list: taking the cancelled invoices out changes neither the revenue,
    nor the pending amount, nor the draft amount. *)
Theorem cancelled_invoices_count_nowhere :
  forall invoices : list Invoice,
    let kept :=
      filter (fun i => negb (String.eqb (status i) "cancelled")) invoices in
    totalRevenue kept = totalRevenue invoices /\
    pendingAmount kept = pendingAmount invoices /\
    draftAmount kept = draftAmount invoices.
Proof.
  intros invoices kept. subst kept.
  unfold totalRevenue, pendingAmount, draftAmount.
  rewrite !filter_filter_implied; [repeat split | | |];
    intros x H;
    repeat match goal with
           | H : (_ || _)%bool = true |- _ => apply orb_true_iff in H as [H|H]
           end;
    apply String.eqb_eq in H; rewrite H; reflexivity.
Qed.

End Submission.

(** ** The purchase form keeps rate and code together *)

Module PurchaseFormFacts.
Import JS Purchases PurchaseForm PurchaseFormSpec.
Local Open Scope Q_scope.

Lemma pur_taxConsistent_iff (item : FormItem) :
  taxConsistent item = true <->
  (taxCode item = "A" -> taxRate item == 0) /\
  (taxCode item = "B" -> taxRate item == 18).
Proof.
  unfold taxConsistent.
  exact (FormInvariant.taxConsistent_iff (PurchaseSpec.asInvoiceItem item)).
Qed.

Lemma pur_updateMatched_taxCode (products : list Product) (item : FormItem)
    (v : string) :
  let updated := updateMatched products item (field_taxCode v) in
  taxCode updated = v /\
  (v = "A" -> taxRate updated = 0) /\
  (v = "B" -> taxRate updated = 18).
Proof.
  unfold updateMatched, find, TAX_CODES.
  cbn [assign List.find value rate].
  destruct (String.eqb_spec "A" v) as [eA|nA].
  - subst v. cbn. repeat split; congruence.
  - destruct (String.eqb_spec "B" v) as [eB|nB].
    + subst v. cbn. repeat split; congruence.
    + cbn. repeat split; congruence.
Qed.

Lemma pur_updateMatched_consistent (products : list Product)
    (item : FormItem) (fv : FieldValue) :
  isTaxRateField fv = false ->
  taxConsistent item = true ->
  taxConsistent (updateMatched products item fv) = true.
Proof.
  intros Hallowed Hitem.
  destruct fv as [v|v|v|v|v|v|v|v]; try discriminate Hallowed;
    try exact Hitem.
  - unfold updateMatched. destruct (truthy_string v); [|exact Hitem].
    destruct (find _ products); exact Hitem.
  - destruct (pur_updateMatched_taxCode products item v) as (Hc & HA & HB).
    cbv zeta in *. apply pur_taxConsistent_iff. rewrite Hc. split; intro E.
    + rewrite (HA E). reflexivity.
    + rewrite (HB E). reflexivity.
Qed.

(** Every item of a purchase form reached from the initial item by
    [addItem], [removeItem] and [updateItem] on a field other than
    [taxRate] has a rate that agrees with its code: 0 for A, 18 for B. *)
Theorem purchase_form_rates_follow_codes :
  forall (products : list Product) (formItems : list FormItem),
    reachable products formItems ->
    Forall (fun item =>
              (taxCode item = "A" -> taxRate item == 0) /\
              (taxCode item = "B" -> taxRate item == 18))
           formItems.
Proof.
  intros products l Hreach.
  apply Forall_forall. intros item Hin.
  apply pur_taxConsistent_iff. revert item Hin. apply forallb_forall.
  induction Hreach as [|now l _ IH|l id0 _ IH|l id0 fv Hallowed _ IH].
  - reflexivity.
  - unfold addItem. rewrite forallb_app, IH. reflexivity.
  - unfold removeItem. destruct (1 <? length l)%nat; [|exact IH].
    rewrite forallb_forall in *. intros x Hx.
    apply filter_In in Hx. now apply IH.
  - unfold updateItem.
    induction l as [|item l IHl]; cbn [map forallb]; [reflexivity|].
    cbn [forallb] in IH. apply andb_true_iff in IH as [Hitem Hl].
    rewrite (IHl Hl), andb_true_r.
    destruct (String.eqb (id item) id0); [|exact Hitem].
    now apply pur_updateMatched_consistent.
Qed.

Lemma purchase_form_rates_follow_codes_witness :
  let formItems :=
    removeItem
      (updateItem [] (addItem "2" initialFormItems) "2" (field_taxCode "B"))
      "1" in
  reachable [] formItems /\
  Forall (fun item =>
            (taxCode item = "A" -> taxRate item == 0) /\
            (taxCode item = "B" -> taxRate item == 18))
         formItems.
Proof.
  assert (Hreach : reachable []
            (removeItem
               (updateItem [] (addItem "2" initialFormItems) "2"
                  (field_taxCode "B")) "1")).
  { apply reach_removeItem. apply reach_updateItem; [reflexivity|].
    apply reach_addItem. apply reach_initial. }
  split; [exact Hreach|].
  exact (purchase_form_rates_follow_codes [] _ Hreach).
Defined.

End PurchaseFormFacts.

(** ** Editing a stored quotation *)

Module QuotationEditFacts.
Import JS Quotations QuotationEdit.
Local Open Scope Q_scope.

Lemma or_number_cases (a b : Q) :
  (a == 0 /\ or_number a b = b) \/ (~ a == 0 /\ or_number a b = a).
Proof.
  unfold or_number, truthy_number.
  destruct (Qeq_bool a 0) eqn:E; cbn [negb].
  - left. split; [now apply Qeq_bool_iff | reflexivity].
  - right. split; [|reflexivity]. intro H. apply Qeq_bool_iff in H.
    congruence.
Qed.

(** An item loaded into the form by [openEditModal] never has quantity 0
    or rate 0: a stored quantity of 0 comes back as 1, and a stored rate
    of 0%, which the rate input accepts, comes back as 18%. *)
Theorem editItem_replaces_zero :
  forall (idx : nat) (it : StoredItem) (item : FormItem),
    editItem idx it = Some item ->
    ~ quantity item == 0 /\
    ~ taxRate item == 0 /\
    (st_quantity it == 0 -> quantity item = 1) /\
    (st_taxRate it == 0 -> taxRate item = 18).
Proof.
  intros idx it item Hedit. unfold editItem in Hedit.
  destruct (editProduct (st_product it)); [|discriminate Hedit].
  injection Hedit as <-. cbn [quantity taxRate].
  destruct (or_number_cases (st_quantity it) 1) as [[Hq Eq]|[Hq Eq]];
    destruct (or_number_cases (st_taxRate it) 18) as [[Hr Er]|[Hr Er]];
    rewrite Eq, Er; repeat split; try assumption; try discriminate;
    try reflexivity; intro H; contradiction.
Qed.

Lemma editItem_replaces_zero_witness :
  exists item : FormItem,
    editItem 0 (MoreExamples.storedLine 2 100 40 0) = Some item /\
    ~ quantity item == 0 /\
    ~ taxRate item == 0 /\
    (st_quantity (MoreExamples.storedLine 2 100 40 0) == 0 ->
     quantity item = 1) /\
    (st_taxRate (MoreExamples.storedLine 2 100 40 0) == 0 ->
     taxRate item = 18).
Proof.
  eexists. split; [reflexivity|].
  exact (editItem_replaces_zero 0 (MoreExamples.storedLine 2 100 40 0) _
           eq_refl).
Defined.

(** A stored line whose quantity and rate are not 0 comes back into the
    form with the amounts it was stored with. *)
Theorem editItem_keeps_amounts :
  forall (idx : nat) (it : StoredItem) (item : FormItem),
    editItem idx it = Some item ->
    ~ st_quantity it == 0 ->
    ~ st_taxRate it == 0 ->
    quantity item = st_quantity it /\
    unitPrice item == st_unitPrice it /\
    discount item == st_discount it /\
    taxRate item = st_taxRate it.
Proof.
  intros idx it item Hedit Hq Hr. unfold editItem in Hedit.
  destruct (editProduct (st_product it)); [|discriminate Hedit].
  injection Hedit as <-.
  cbn [quantity unitPrice discount taxRate].
  destruct (or_number_cases (st_quantity it) 1) as [[Hq' _]|[_ Eq]];
    [contradiction|].
  destruct (or_number_cases (st_taxRate it) 18) as [[Hr' _]|[_ Er]];
    [contradiction|].
  assert (Eu : or_number (st_unitPrice it) 0 == st_unitPrice it).
  { destruct (or_number_cases (st_unitPrice it) 0) as [[H E]|[_ E]];
      rewrite E; [symmetry; exact H | reflexivity]. }
  assert (Ed : or_number (st_discount it) 0 == st_discount it).
  { destruct (or_number_cases (st_discount it) 0) as [[H E]|[_ E]];
      rewrite E; [symmetry; exact H | reflexivity]. }
  rewrite Eq, Er. repeat split; assumption.
Qed.

Lemma editItem_keeps_amounts_witness :
  exists item : FormItem,
    editItem 0 (MoreExamples.storedLine 2 100 40 25) = Some item /\
    ~ st_quantity (MoreExamples.storedLine 2 100 40 25) == 0 /\
    ~ st_taxRate (MoreExamples.storedLine 2 100 40 25) == 0 /\
    quantity item = 2 /\
    taxRate item = 25.
Proof.
  assert (Hq : ~ st_quantity (MoreExamples.storedLine 2 100 40 25) == 0)
    by (intro H; vm_compute in H; discriminate H).
  assert (Hr : ~ st_taxRate (MoreExamples.storedLine 2 100 40 25) == 0)
    by (intro H; vm_compute in H; discriminate H).
  eexists. split; [reflexivity|]. split; [exact Hq|]. split; [exact Hr|].
  destruct (editItem_keeps_amounts 0 (MoreExamples.storedLine 2 100 40 25)
              _ eq_refl Hq Hr) as (E1 & _ & _ & E4).
  split; [exact E1 | exact E4].
Defined.

(** No quotation is counted both as pending and as accepted: the two
    counters together never exceed the number of quotations. *)
Theorem pending_and_accepted_disjoint :
  forall quotations : list Quotation,
    (pendingCount quotations + acceptedCount quotations
     <= length quotations)%nat.
Proof.
  intro l. unfold pendingCount, acceptedCount.
  induction l as [|q l IH]; cbn [filter length]; [lia|].
  destruct (String.eqb_spec (status q) "draft") as [E|_];
    [rewrite E; cbn; lia|].
  destruct (String.eqb_spec (status q) "sent") as [E|_];
    [rewrite E; cbn; lia|].
  cbn [orb]. destruct (_ || _); cbn [length]; lia.
Qed.

End QuotationEditFacts.

(** ** The percentages of the dashboard *)

Module DashboardFacts.
Import JS Dashboard.
Local Open Scope Q_scope.










End DashboardFacts.


(** * The totals on binary64 numbers *)

Module Totals64Facts.
Import JS B64 Document64 Spec64 Invoices64.

Ltac bracket_cases64 item :=
  destruct (String.eqb_spec (taxCode item) "A");
  destruct (String.eqb_spec (taxCode item) "B");
  try congruence.

(** The six accumulators after the loop, each as the loop on it alone. *)
Lemma loop64_fields (l : list FormItem) (acc : Sums) :
  let r := fold_left accumulate l acc in
  s_totalAEx r = fold_left (inBracket "A" lineNet) l (s_totalAEx acc) /\
  s_totalB18 r = fold_left (inBracket "B" lineNet) l (s_totalB18 acc) /\
  s_totalTaxA r = fold_left (inBracket "A" lineTax) l (s_totalTaxA acc) /\
  s_totalTaxB r = fold_left (inBracket "B" lineTax) l (s_totalTaxB acc) /\
  s_subtotal r =
    fold_left (fun sum x => add sum (lineSubtotal x)) l (s_subtotal acc) /\
  s_totalDiscount r =
    fold_left (fun sum x => add sum (discount x)) l (s_totalDiscount acc).
Proof.
  revert acc. induction l as [|item l IH]; intro acc; cbn [fold_left].
  - repeat split.
  - destruct (IH (accumulate acc item)) as (HA & HB & HTA & HTB & HS & HD).
    cbv zeta in *. rewrite HA, HB, HTA, HTB, HS, HD. clear.
    unfold accumulate, inBracket, lineTax, lineNet, lineSubtotal.
    bracket_cases64 item; repeat split.
Qed.

(** Every field of the returned object, by the operations that form it. *)
Lemma totals64_meaning (items : list FormItem) :
  let t := calculateTotals items in
  totalAEx t = fold_left (inBracket "A" lineNet) items zero /\
  totalB18 t = fold_left (inBracket "B" lineNet) items zero /\
  totalTaxA t = fold_left (inBracket "A" lineTax) items zero /\
  totalTaxB t = fold_left (inBracket "B" lineTax) items zero /\
  subtotal t = sum64 lineSubtotal items /\
  totalDiscount t = sum64 discount items /\
  totalTax t = add (totalTaxA t) (totalTaxB t) /\
  grandTotal t = add (sub (subtotal t) (totalDiscount t)) (totalTax t) /\
  roundedAmount t = div (Math_round (mul (grandTotal t) hundred)) hundred.
Proof.
  destruct (loop64_fields items zeroSums) as (HA & HB & HTA & HTB & HS & HD).
  cbv zeta in *. unfold calculateTotals, sum64.
  cbn [totalAEx totalB18 totalTaxA totalTaxB subtotal totalDiscount totalTax
       grandTotal roundedAmount].
  rewrite HA, HB, HTA, HTB, HS, HD. repeat split.
Qed.

(** A line that does not carry the code leaves the bracket accumulator
    as it is, wherever the line stands. *)
Lemma inBracket_skip (code : string) (f : FormItem -> float)
    (pre post : list FormItem) (item : FormItem) (z : float) :
  taxCode item <> code ->
  fold_left (inBracket code f) (pre ++ item :: post) z
  = fold_left (inBracket code f) (pre ++ post) z.
Proof.
  intro Hcode. rewrite !fold_left_app. cbn [fold_left].
  unfold inBracket at 2. apply String.eqb_neq in Hcode. rewrite Hcode.
  reflexivity.
Qed.

Lemma sum64_last {A : Type} (f : A -> float) (l : list A) (x : A) :
  sum64 f (l ++ [x]) = add (sum64 f l) (f x).
Proof.
  unfold sum64. rewrite fold_left_app. reflexivity.
Qed.

Lemma inBracket_last (code : string) (f : FormItem -> float)
    (l : list FormItem) (item : FormItem) (z : float) :
  fold_left (inBracket code f) (l ++ [item]) z
  = inBracket code f (fold_left (inBracket code f) l z) item.
Proof.
  rewrite fold_left_app. reflexivity.
Qed.

(** The purchase totals are the invoice totals on [unitCost]. *)
Lemma loop64_as_invoice (l : list Purchases64.FormItem) (acc : Sums) :
  fold_left Purchases64.accumulate l acc =
  fold_left accumulate (map asInvoiceItem l) acc.
Proof.
  revert acc. induction l as [|item l IH]; intro acc.
  - reflexivity.
  - cbn [fold_left map]. rewrite IH. reflexivity.
Qed.

Lemma totals64_as_invoice (items : list Purchases64.FormItem) :
  Purchases64.calculateTotals items =
  calculateTotals (map asInvoiceItem items).
Proof.
  unfold Purchases64.calculateTotals, calculateTotals.
  rewrite loop64_as_invoice. reflexivity.
Qed.

Lemma sum64_map {A B : Type} (g : A -> B) (f : B -> float) (l : list A) :
  sum64 f (map g l) = sum64 (fun x => f (g x)) l.
Proof.
  unfold sum64. generalize zero.
  induction l as [|x l IH]; intro z; cbn [map fold_left];
    [reflexivity | apply IH].
Qed.

End Totals64Facts.


(** ** Integers and [Math.round] on binary64 numbers *)

Module Round64Facts.
Import B64.
Local Open Scope Z_scope.

Lemma digits2_pos_iter (m n : positive) :
  digits2_pos (Pos.iter xO m n) = (digits2_pos m + n)%positive.
Proof.
  induction n as [|n IH] using Pos.peano_ind.
  - cbn. lia.
  - rewrite Pos.iter_succ. cbn [digits2_pos]. rewrite IH. lia.
Qed.

Lemma iter_xO_pow (m n : positive) :
  Zpos (Pos.iter xO m n) = Zpos m * 2 ^ Zpos n.
Proof.
  induction n as [|n IH] using Pos.peano_ind.
  - cbn. lia.
  - rewrite Pos.iter_succ, Pos2Z.inj_succ, Z.pow_succ_r by lia.
    rewrite Pos2Z.inj_xO, IH. lia.
Qed.

(** A mantissa of 53 bits with an exponent in range is kept by the
    rounding. *)
Lemma round_aux_canonical (s : bool) (m : positive) (e : Z) :
  Zpos (digits2_pos m) = 53 ->
  -1074 <= e <= 971 ->
  binary_round_aux prec emax s (Zpos m) e loc_Exact = S754_finite s m e.
Proof.
  intros Hd He. unfold binary_round_aux, shr_fexp, fexp, emin, prec, emax.
  cbn [Zdigits2 shr_record_of_loc]. rewrite Hd.
  replace (Z.max (53 + e - 53) (3 - 1024 - 53) - e) with 0 by lia.
  cbn [shr shr_m loc_of_shr_record round_nearest_even shr_record_of_loc
       Zdigits2].
  rewrite Hd.
  replace (Z.max (53 + e - 53) (3 - 1024 - 53) - e) with 0 by lia.
  cbn [shr shr_m].
  replace (e <=? 1024 - 53) with true by (symmetry; apply Z.leb_le; lia).
  reflexivity.
Qed.

(** A positive integer of at most 53 bits is a binary64 number. *)
Lemma round_small_positive (s : bool) (m : positive) :
  Zpos (digits2_pos m) <= 53 ->
  exists (m' : positive) (e : Z),
    binary_round prec emax s m 0 = S754_finite s m' e /\
    e <= 0 /\ Zpos m' = Zpos m * 2 ^ (- e).
Proof.
  intro Hd. unfold binary_round, shl_align, fexp, emin, prec, emax.
  set (d := Zpos (digits2_pos m)) in *.
  assert (Hd1 : 1 <= d) by (subst d; lia).
  replace (Z.max (d + 0 - 53) (3 - 1024 - 53) - 0) with (d - 53) by lia.
  replace (Z.max (d + 0 - 53) (3 - 1024 - 53)) with (d - 53) by lia.
  destruct (d - 53) as [|p|p] eqn:E; try lia.
  - exists m, 0. split; [|split; [lia | cbn; lia]].
    apply round_aux_canonical; [subst d; lia | lia].
  - exists (Pos.iter xO m p), (Zneg p). split; [|split; [lia|]].
    + apply round_aux_canonical; [|lia].
      rewrite digits2_pos_iter. subst d. lia.
    + rewrite iter_xO_pow. reflexivity.
Qed.

Lemma digits2_pos_lower (m : positive) :
  2 ^ (Zpos (digits2_pos m) - 1) <= Zpos m.
Proof.
  induction m as [p IH|p IH|]; cbn [digits2_pos].
  - rewrite Pos2Z.inj_succ.
    replace (Z.succ (Zpos (digits2_pos p)) - 1)
      with (Z.succ (Zpos (digits2_pos p) - 1)) by lia.
    rewrite Z.pow_succ_r by lia. lia.
  - rewrite Pos2Z.inj_succ.
    replace (Z.succ (Zpos (digits2_pos p)) - 1)
      with (Z.succ (Zpos (digits2_pos p) - 1)) by lia.
    rewrite Z.pow_succ_r by lia. lia.
  - cbn. lia.
Qed.

Lemma digits2_pos_small (m : positive) :
  Zpos m < 2 ^ 53 -> Zpos (digits2_pos m) <= 53.
Proof.
  intro Hm. pose proof (digits2_pos_lower m) as Hlow.
  destruct (Z_le_gt_dec (Zpos (digits2_pos m)) 53) as [L|G]; [exact L|].
  exfalso.
  assert (H : 2 ^ 53 <= 2 ^ (Zpos (digits2_pos m) - 1))
    by (apply Z.pow_le_mono_r; lia).
  lia.
Qed.

Lemma Qpower_2_neg (e : Z) :
  e <= 0 -> (inject_Z (2 ^ (- e)) * Qpower 2 e == 1)%Q.
Proof.
  intro He. rewrite Zpower_Qpower by lia.
  change (inject_Z 2) with 2%Q.
  rewrite <- Qpower_plus by discriminate.
  replace (- e + e) with 0 by lia. reflexivity.
Qed.

(** An integer below [2^53] in magnitude is a binary64 number: the
    literal stands for the integer itself. *)
Lemma of_Z_exact (k : Z) :
  - 2 ^ 53 < k < 2 ^ 53 ->
  exists q : Q, to_Q (of_Z k) = Some q /\ (q == inject_Z k)%Q.
Proof.
  intro Hk. unfold of_Z, binary_normalize.
  destruct k as [|m|m].
  - exists 0%Q. split; reflexivity.
  - destruct (round_small_positive false m) as (m' & e & Hr & He & Hm).
    { apply digits2_pos_small. lia. }
    rewrite Hr. cbn [to_Q]. eexists. split; [reflexivity|].
    unfold value_of. rewrite Hm, inject_Z_mult, <- Qmult_assoc.
    rewrite (Qpower_2_neg e He). ring.
  - destruct (round_small_positive true m) as (m' & e & Hr & He & Hm).
    { apply digits2_pos_small. lia. }
    rewrite Hr. cbn [to_Q]. eexists. split; [reflexivity|].
    unfold value_of.
    change (Zneg m') with (- Zpos m'). change (Zneg m) with (- Zpos m).
    rewrite Hm, !inject_Z_opp, inject_Z_mult.
    setoid_replace
      (- (inject_Z (Zpos m) * inject_Z (2 ^ (- e))) * Qpower 2 e)%Q
      with (- inject_Z (Zpos m) * (inject_Z (2 ^ (- e)) * Qpower 2 e))%Q
      by ring.
    rewrite (Qpower_2_neg e He). ring.
Qed.

(** [Math.round] of a finite number below [2^52] in magnitude is the
    integer nearest to it, the upper one of two equally near. *)
Lemma Math_round_nearest64 (y : float) (v : Q) :
  to_Q y = Some v ->
  (- inject_Z (2 ^ 52) < v)%Q -> (v < inject_Z (2 ^ 52))%Q ->
  exists (k : Z) (q : Q),
    to_Q (Math_round y) = Some q /\ (q == inject_Z k)%Q /\
    (v - (1 # 2) < inject_Z k)%Q /\ (inject_Z k <= v + (1 # 2))%Q.
Proof.
  intros Hy Hlo Hhi. destruct y as [s|s| |s m e]; try discriminate Hy.
  - injection Hy as <-. exists 0, 0%Q. cbn [Math_round to_Q].
    repeat split; try reflexivity; vm_compute; reflexivity || discriminate.
  - injection Hy as <-. cbn [Math_round].
    set (v := value_of s m e) in *.
    pose proof (Qfloor_le (v + (1 # 2))) as Fle.
    pose proof (Qlt_floor (v + (1 # 2))) as Flt.
    rewrite inject_Z_plus in Flt. change (inject_Z 1) with 1%Q in Flt.
    set (k := Qfloor (v + (1 # 2))) in *.
    assert (Hk : - 2 ^ 53 < k < 2 ^ 53).
    { assert (A : (inject_Z k < inject_Z (2 ^ 52 + 1))%Q).
      { rewrite inject_Z_plus. change (inject_Z 1) with 1%Q. lra. }
      assert (B : (inject_Z (- 2 ^ 52 - 1) < inject_Z k)%Q).
      { unfold Z.sub. rewrite inject_Z_plus, !inject_Z_opp.
        change (inject_Z 1) with 1%Q. lra. }
      rewrite <- Zlt_Qlt in A, B.
      assert (P : 2 ^ 52 + 1 < 2 ^ 53) by (vm_compute; reflexivity).
      lia. }
    exists k. destruct (Z.eqb_spec k 0) as [E|N].
    + exists 0%Q. cbn [to_Q]. rewrite E in *.
      change (inject_Z 0) with 0%Q in *.
      repeat split; try reflexivity; lra.
    + destruct (of_Z_exact k Hk) as (q & Hq & Eq).
      exists q. repeat split; try assumption; lra.
Qed.

End Round64Facts.


(** ** The document totals of the invoice and purchase forms, on binary64
    numbers *)

Module DocumentTotals64.
Import JS B64 Document64 Spec64 Totals64Facts.

(** C1, as the claim states it, fails on one unit at 10 with code B at
    18%: the tax is [10 * (18 / 100)], which binary64 rounds to
    1.7999999999999998, the grand total is 10 - 0 + 1.7999999999999998
    rounded to 11.8, and 11.8 is not the exact sum. *)
Lemma grandTotal_identity_not_exact :
  let t := Invoices64.calculateTotals [Examples64.tenAtB] in
  subtotal t = of_Z 10 /\
  totalDiscount t = zero /\
  totalTax t = decimal 17999999999999998 10000000000000000 /\
  grandTotal t = decimal 118 10 /\
  ~ identity_exact t.
Proof.
  repeat split; try (vm_compute; reflexivity).
  intro H. vm_compute in H. discriminate H.
Qed.

(** C1, amended.  For every list of line items, of any length, the totals
    of the invoice form and those of the purchase form satisfy
    [grandTotal = subtotal - totalDiscount + totalTax] in binary64
    arithmetic, each of the two operations rounded to the nearest number:
    [subtotal] is the sum of the products [quantity * unitPrice]
    ([unitCost] for purchases) and [totalDiscount] the sum of the
    discounts, added from 0 in the order of the lines with every step
    rounded, and [totalTax] is [totalTaxA + totalTaxB], rounded. *)
Theorem grandTotal_identity_binary64 :
  (forall items : list Invoices64.FormItem,
     let t := Invoices64.calculateTotals items in
     grandTotal t = add (sub (subtotal t) (totalDiscount t)) (totalTax t) /\
     subtotal t =
       sum64 (fun i => mul (Invoices64.quantity i) (Invoices64.unitPrice i))
             items /\
     totalDiscount t = sum64 Invoices64.discount items /\
     totalTax t = add (totalTaxA t) (totalTaxB t)) /\
  (forall items : list Purchases64.FormItem,
     let t := Purchases64.calculateTotals items in
     grandTotal t = add (sub (subtotal t) (totalDiscount t)) (totalTax t) /\
     subtotal t =
       sum64 (fun i => mul (Purchases64.quantity i) (Purchases64.unitCost i))
             items /\
     totalDiscount t = sum64 Purchases64.discount items /\
     totalTax t = add (totalTaxA t) (totalTaxB t)).
Proof.
  split; intros items t; subst t.
  - destruct (totals64_meaning items)
      as (_ & _ & _ & _ & HS & HD & HT & HG & _).
    repeat split; assumption.
  - rewrite totals64_as_invoice.
    destruct (totals64_meaning (map asInvoiceItem items))
      as (_ & _ & _ & _ & HS & HD & HT & HG & _).
    cbv zeta in *. repeat split; try assumption.
    + rewrite HS, sum64_map. reflexivity.
    + rewrite HD, sum64_map. reflexivity.
Qed.





(** C7.  A line whose tax code is 'None' adds nothing to [totalAEx],
    [totalB18], [totalTaxA], [totalTaxB] and [totalTax], wherever it
    stands in the list: they are the same with the line and without it.
    Its amounts go into [subtotal], [totalDiscount] and [grandTotal]: when
    the line comes last, [quantity * unitPrice] ([unitCost] for
    purchases) is added to the subtotal the lines before it gave, its
    discount to their total discount, and the grand total is formed from
    the two new sums and the unchanged total tax. *)
Theorem none_line_outside_brackets64 :
  (forall (pre post : list Invoices64.FormItem) (item : Invoices64.FormItem),
     Invoices64.taxCode item = "None" ->
     let w := Invoices64.calculateTotals (pre ++ item :: post) in
     let w0 := Invoices64.calculateTotals (pre ++ post) in
     let t := Invoices64.calculateTotals (pre ++ [item]) in
     let t0 := Invoices64.calculateTotals pre in
     (totalAEx w = totalAEx w0 /\ totalB18 w = totalB18 w0 /\
      totalTaxA w = totalTaxA w0 /\ totalTaxB w = totalTaxB w0 /\
      totalTax w = totalTax w0) /\
     subtotal t =
       add (subtotal t0)
           (mul (Invoices64.quantity item) (Invoices64.unitPrice item)) /\
     totalDiscount t = add (totalDiscount t0) (Invoices64.discount item) /\
     grandTotal t = add (sub (subtotal t) (totalDiscount t)) (totalTax t0)) /\
  (forall (pre post : list Purchases64.FormItem)
          (item : Purchases64.FormItem),
     Purchases64.taxCode item = "None" ->
     let w := Purchases64.calculateTotals (pre ++ item :: post) in
     let w0 := Purchases64.calculateTotals (pre ++ post) in
     let t := Purchases64.calculateTotals (pre ++ [item]) in
     let t0 := Purchases64.calculateTotals pre in
     (totalAEx w = totalAEx w0 /\ totalB18 w = totalB18 w0 /\
      totalTaxA w = totalTaxA w0 /\ totalTaxB w = totalTaxB w0 /\
      totalTax w = totalTax w0) /\
     subtotal t =
       add (subtotal t0)
           (mul (Purchases64.quantity item) (Purchases64.unitCost item)) /\
     totalDiscount t = add (totalDiscount t0) (Purchases64.discount item) /\
     grandTotal t = add (sub (subtotal t) (totalDiscount t)) (totalTax t0)).
Proof.
  assert (inv : forall (pre post : list Invoices64.FormItem)
                       (item : Invoices64.FormItem),
     Invoices64.taxCode item = "None" ->
     let w := Invoices64.calculateTotals (pre ++ item :: post) in
     let w0 := Invoices64.calculateTotals (pre ++ post) in
     let t := Invoices64.calculateTotals (pre ++ [item]) in
     let t0 := Invoices64.calculateTotals pre in
     (totalAEx w = totalAEx w0 /\ totalB18 w = totalB18 w0 /\
      totalTaxA w = totalTaxA w0 /\ totalTaxB w = totalTaxB w0 /\
      totalTax w = totalTax w0) /\
     subtotal t =
       add (subtotal t0)
           (mul (Invoices64.quantity item) (Invoices64.unitPrice item)) /\
     totalDiscount t = add (totalDiscount t0) (Invoices64.discount item) /\
     grandTotal t = add (sub (subtotal t) (totalDiscount t)) (totalTax t0)).
  { intros pre post item Hcode w w0 t t0.
    assert (NA : Invoices64.taxCode item <> "A") by (rewrite Hcode; discriminate).
    assert (NB : Invoices64.taxCode item <> "B") by (rewrite Hcode; discriminate).
    destruct (totals64_meaning (pre ++ item :: post))
      as (HA & HB & HTA & HTB & _ & _ & HT & _).
    destruct (totals64_meaning (pre ++ post))
      as (HA0 & HB0 & HTA0 & HTB0 & _ & _ & HT0 & _).
    cbv zeta in *. fold w in HA, HB, HTA, HTB, HT.
    fold w0 in HA0, HB0, HTA0, HTB0, HT0.
    assert (EA : totalAEx w = totalAEx w0)
      by (rewrite HA, HA0; now apply inBracket_skip).
    assert (EB : totalB18 w = totalB18 w0)
      by (rewrite HB, HB0; now apply inBracket_skip).
    assert (ETA : totalTaxA w = totalTaxA w0)
      by (rewrite HTA, HTA0; now apply inBracket_skip).
    assert (ETB : totalTaxB w = totalTaxB w0)
      by (rewrite HTB, HTB0; now apply inBracket_skip).
    split; [repeat split; try assumption; rewrite HT, HT0, ETA, ETB;
            reflexivity|].
    destruct (totals64_meaning (pre ++ [item]))
      as (_ & _ & HTA1 & HTB1 & HS1 & HD1 & HT1 & HG1 & _).
    destruct (totals64_meaning pre)
      as (_ & _ & HTA2 & HTB2 & HS2 & HD2 & HT2 & _).
    cbv zeta in *. fold t in HTA1, HTB1, HS1, HD1, HT1, HG1.
    fold t0 in HTA2, HTB2, HS2, HD2, HT2.
    rewrite sum64_last in HS1, HD1. rewrite <- HS2 in HS1.
    rewrite <- HD2 in HD1.
    rewrite inBracket_last in HTA1, HTB1.
    rewrite <- HTA2 in HTA1. rewrite <- HTB2 in HTB1.
    unfold inBracket in HTA1, HTB1.
    apply String.eqb_neq in NA, NB. rewrite NA in HTA1. rewrite NB in HTB1.
    repeat split; try assumption.
    rewrite HG1, HT1, HT2, HTA1, HTB1. reflexivity. }
  split; [exact inv|].
  intros pre post item Hcode.
  rewrite !totals64_as_invoice, !map_app. cbn [map].
  exact (inv _ _ (asInvoiceItem item) Hcode).
Qed.

Lemma none_line_outside_brackets64_witness :
  let item := Examples64.lineNone in
  let pre := [Examples64.tenAtB] in
  let post := [Examples64.lineA] in
  Invoices64.taxCode item = "None" /\
  totalB18 (Invoices64.calculateTotals (pre ++ item :: post))
    = totalB18 (Invoices64.calculateTotals (pre ++ post)) /\
  subtotal (Invoices64.calculateTotals (pre ++ [item]))
    = add (subtotal (Invoices64.calculateTotals pre))
          (mul (Invoices64.quantity item) (Invoices64.unitPrice item)) /\
  subtotal (Invoices64.calculateTotals (pre ++ [item]))
    = decimal 103 10.
Proof.
  split; [reflexivity|].
  destruct (proj1 none_line_outside_brackets64 [Examples64.tenAtB]
              [Examples64.lineA] Examples64.lineNone eq_refl)
    as ((_ & HB & _) & HS & _).
  split; [exact HB|]. split; [exact HS|]. vm_compute. reflexivity.
Defined.

End DocumentTotals64.


(** ** Rounding of the grand total, on binary64 numbers *)

Module Rounding64.
Import JS B64 Document64 Spec64 Totals64Facts Round64Facts.

(** The credit of an eighth on binary64 numbers: [-0.125 * 100] is
    [-12.5] exactly, [Math.round] gives [-12] and the rounded amount is
    [-0.12]. *)
Example half_cent_credit_binary64 :
  let t := Invoices64.calculateTotals [Examples64.halfCentCredit] in
  grandTotal t = decimal (-125) 1000 /\
  mul (grandTotal t) hundred = decimal (-125) 10 /\
  Math_round (mul (grandTotal t) hundred) = of_Z (-12) /\
  roundedAmount t = decimal (-12) 100.
Proof. repeat split; vm_compute; reflexivity. Qed.

(** C2, amended.  For every list of line items, of the invoice form and of
    the purchase form, [roundedAmount] is
    [Math.round(grandTotal * 100) / 100] in binary64 arithmetic: the
    product [grandTotal * 100] is rounded to a binary64 number [y],
    [Math.round] takes the integer nearest to [y], the upper one of two
    equally near (for [y] below [2^52] in magnitude, where the integer is
    a binary64 number), and the quotient by 100 is rounded again. *)
Theorem roundedAmount_binary64 :
  (forall items : list Invoices64.FormItem,
     let t := Invoices64.calculateTotals items in
     let y := mul (grandTotal t) hundred in
     roundedAmount t = div (Math_round y) hundred /\
     forall v : Q,
       to_Q y = Some v ->
       (- inject_Z (2 ^ 52) < v)%Q -> (v < inject_Z (2 ^ 52))%Q ->
       exists (k : Z) (q : Q),
         to_Q (Math_round y) = Some q /\ (q == inject_Z k)%Q /\
         (v - (1 # 2) < inject_Z k)%Q /\ (inject_Z k <= v + (1 # 2))%Q) /\
  (forall items : list Purchases64.FormItem,
     let t := Purchases64.calculateTotals items in
     let y := mul (grandTotal t) hundred in
     roundedAmount t = div (Math_round y) hundred /\
     forall v : Q,
       to_Q y = Some v ->
       (- inject_Z (2 ^ 52) < v)%Q -> (v < inject_Z (2 ^ 52))%Q ->
       exists (k : Z) (q : Q),
         to_Q (Math_round y) = Some q /\ (q == inject_Z k)%Q /\
         (v - (1 # 2) < inject_Z k)%Q /\ (inject_Z k <= v + (1 # 2))%Q).
Proof.
  split; intros items t y.
  - split; [|intros v; apply Math_round_nearest64].
    destruct (totals64_meaning items) as (_ & _ & _ & _ & _ & _ & _ & _ & HR).
    exact HR.
  - split; [|intros v; apply Math_round_nearest64].
    subst y t. rewrite totals64_as_invoice.
    destruct (totals64_meaning (map asInvoiceItem items))
      as (_ & _ & _ & _ & _ & _ & _ & _ & HR).
    exact HR.
Qed.

Lemma roundedAmount_binary64_witness :
  let t := Invoices64.calculateTotals [Examples64.fourTwentyFiveAtB] in
  let y := mul (grandTotal t) hundred in
  grandTotal t = decimal 5015 1000 /\
  y = decimal 50149999999999994 100000000000000 /\
  roundedAmount t = decimal 501 100 /\
  exists v : Q,
    to_Q y = Some v /\
    (- inject_Z (2 ^ 52) < v)%Q /\ (v < inject_Z (2 ^ 52))%Q /\
    exists (k : Z) (q : Q),
      to_Q (Math_round y) = Some q /\ (q == inject_Z k)%Q /\
      (v - (1 # 2) < inject_Z k)%Q /\ (inject_Z k <= v + (1 # 2))%Q.
Proof.
  split; [vm_compute; reflexivity|]. split; [vm_compute; reflexivity|].
  split; [vm_compute; reflexivity|].
  eexists. split; [vm_compute; reflexivity|].
  assert (Hlo : (- inject_Z (2 ^ 52) < 8822481301274623 # 17592186044416)%Q)
    by (vm_compute; reflexivity).
  assert (Hhi : (8822481301274623 # 17592186044416 < inject_Z (2 ^ 52))%Q)
    by (vm_compute; reflexivity).
  split; [exact Hlo|]. split; [exact Hhi|].
  exact (proj2 (proj1 roundedAmount_binary64
                  [Examples64.fourTwentyFiveAtB]) _ eq_refl Hlo Hhi).
Defined.

End Rounding64.

(** ** The total of one line, on binary64 numbers *)

Module LineTotal64.
Import JS B64 Document64 Spec64.

(** C3, as the claim states it, fails on scenario 4 of the specification,
    entered in the purchase form: for
    [{quantity: 1, unitCost: 100, discount: 150}] at rate 0 the discount
    exceeds [quantity * unitCost], the specified operation fails with
    [InvalidLineItem], and [calculateItemTotal] returns [-50]. *)
Lemma overdiscounted_purchase_returns :
  let item := Examples64.overDiscounted in
  ltb (mul (Purchases64.quantity item) (Purchases64.unitCost item))
      (Purchases64.discount item) = true /\
  Spec.computeLineTotal 1 100 150 0 = Spec.Fails Spec.InvalidLineItem /\
  purchase_itemTotal_outcome item = Spec.Returns (of_Z (-50)) /\
  purchase_itemTotal_outcome item <> Spec.Fails Spec.InvalidLineItem.
Proof.
  split; [reflexivity|]. split; [reflexivity|].
  split; [vm_compute; reflexivity | discriminate].
Qed.

(** C3, amended.  For every line item whose discount exceeds
    [quantity * unitAmount], the line-total computation of the invoice
    form and that of the purchase form do not fail: they return the net
    amount [quantity * unitAmount - discount] plus the tax on it at the
    line's rate, [netAmount + netAmount * (taxRate / 100)], each
    operation in binary64 arithmetic. *)
Theorem overdiscounted_line_total64 :
  (forall item : Invoices64.FormItem,
     ltb (mul (Invoices64.quantity item) (Invoices64.unitPrice item))
         (Invoices64.discount item) = true ->
     let netAmount :=
       sub (mul (Invoices64.quantity item) (Invoices64.unitPrice item))
           (Invoices64.discount item) in
     exists v : float,
       invoice_itemTotal_outcome item = Spec.Returns v /\
       v = add netAmount
             (mul netAmount (div (Invoices64.taxRate item) hundred))) /\
  (forall item : Purchases64.FormItem,
     ltb (mul (Purchases64.quantity item) (Purchases64.unitCost item))
         (Purchases64.discount item) = true ->
     let netAmount :=
       sub (mul (Purchases64.quantity item) (Purchases64.unitCost item))
           (Purchases64.discount item) in
     exists v : float,
       purchase_itemTotal_outcome item = Spec.Returns v /\
       v = add netAmount
             (mul netAmount (div (Purchases64.taxRate item) hundred))).
Proof.
  split; intros item _ netAmount; eexists; split; reflexivity.
Qed.

Lemma overdiscounted_line_total64_witness :
  let item := Examples64.overDiscounted in
  ltb (mul (Purchases64.quantity item) (Purchases64.unitCost item))
      (Purchases64.discount item) = true /\
  exists v : float,
    purchase_itemTotal_outcome item = Spec.Returns v /\
    v = add (sub (mul (Purchases64.quantity item)
                      (Purchases64.unitCost item))
                 (Purchases64.discount item))
            (mul (sub (mul (Purchases64.quantity item)
                           (Purchases64.unitCost item))
                      (Purchases64.discount item))
                 (div (Purchases64.taxRate item) hundred)).
Proof.
  split; [reflexivity|].
  exact (proj2 overdiscounted_line_total64 Examples64.overDiscounted
           eq_refl).
Defined.

(** One unit at 39 with 78 off, taxed at 18%, in the purchase form: the
    line total returned is -46.019999999999996. *)
Example overdiscounted_thirty_nine :
  purchase_itemTotal_outcome
    (Examples64.purchaseLine (of_Z 1) (of_Z 39) (of_Z 78) "B" (of_Z 18))
  = Spec.Returns (decimal (-46019999999999996) 1000000000000000).
Proof. vm_compute. reflexivity. Qed.

(** C5.  For every form line item, the preview [calculateItemTotal] shows
    while editing is the [totalWithTax] that [handleSubmit] computes for
    the same item, in the invoice form and in the purchase form alike:
    [(quantity * unitAmount - discount)
     + (quantity * unitAmount - discount) * (taxRate / 100)], with the
    operations of the code in binary64 arithmetic. *)
Theorem preview_matches_submission64 :
  (forall (products : list Invoices64.Product) (item : Invoices64.FormItem),
     Invoices64.calculateItemTotal item
       = Invoices64.i_totalWithTax (Invoices64.submitItem products item) /\
     Invoices64.calculateItemTotal item
       = add (sub (mul (Invoices64.quantity item)
                       (Invoices64.unitPrice item))
                  (Invoices64.discount item))
             (mul (sub (mul (Invoices64.quantity item)
                            (Invoices64.unitPrice item))
                       (Invoices64.discount item))
                  (div (Invoices64.taxRate item) hundred))) /\
  (forall item : Purchases64.FormItem,
     Purchases64.calculateItemTotal item
       = Purchases64.i_totalWithTax (Purchases64.submitItem item) /\
     Purchases64.calculateItemTotal item
       = add (sub (mul (Purchases64.quantity item)
                       (Purchases64.unitCost item))
                  (Purchases64.discount item))
             (mul (sub (mul (Purchases64.quantity item)
                            (Purchases64.unitCost item))
                       (Purchases64.discount item))
                  (div (Purchases64.taxRate item) hundred))).
Proof.
  split; intros; split; reflexivity.
Qed.

(** One unit at 39 taxed at 18%: the preview and the submitted total are
    both 46.019999999999996. *)
Example preview_thirty_nine :
  Invoices64.calculateItemTotal Examples64.thirtyNineAtB
    = decimal 46019999999999996 1000000000000000 /\
  Invoices64.i_totalWithTax
    (Invoices64.submitItem [] Examples64.thirtyNineAtB)
    = decimal 46019999999999996 1000000000000000.
Proof. split; vm_compute; reflexivity. Qed.

End LineTotal64.
